(** * Flow-log classifier: a shallow embedding of [flow_log_parser.py]

    The development follows the Python source method by method:
    [_load_lookups], [_parse_line], [process_logs], [write_report] and
    [main].  Python dictionaries are finite maps ([gmap]), Python integers
    are [Z], text is [string], and the mutable [FlowParser] instance
    together with the console is threaded through a small state-and-exception
    monad in which a raised exception keeps every mutation made before it. *)

From Stdlib Require Import ZArith Ascii String List Lia DecimalString.
From Stdlib Require DecimalPos DecimalZ.
From stdpp Require Import base gmap strings list fin_maps sorting.

Local Open Scope Z_scope.
Local Open Scope string_scope.

(** ** Text primitives of the Python runtime *)

Module PyStr.

(** [str.isspace] restricted to the code points an ASCII-decoded file can
    contain: TAB, LF, VT, FF, CR, the four separators FS GS RS US, and SPACE. *)
Definition isspace (c : ascii) : bool :=
  let n := N_of_ascii c in
  ((9 <=? n) && (n <=? 13) || (28 <=? n) && (n <=? 32))%N.

Fixpoint lstrip (s : string) : string :=
  match s with
  | EmptyString => EmptyString
  | String c s' => if isspace c then lstrip s' else s
  end.

Fixpoint rstrip (s : string) : string :=
  match s with
  | EmptyString => EmptyString
  | String c s' =>
      match rstrip s' with
      | EmptyString => if isspace c then EmptyString else String c EmptyString
      | r => String c r
      end
  end.

(** [s.strip()] *)
Definition strip (s : string) : string := rstrip (lstrip s).

(** Pushes a finished word in front of the words found so far; the empty
    word stands for "no word in progress". *)
Definition push_word (w : string) (ws : list string) : list string :=
  match w with EmptyString => ws | _ => w :: ws end.

(** Scans from the right: the first component is the word that the
    characters read so far are still extending. *)
Fixpoint fields_from (s : string) : string * list string :=
  match s with
  | EmptyString => (EmptyString, [])
  | String c s' =>
      let '(w, ws) := fields_from s' in
      if isspace c then (EmptyString, push_word w ws) else (String c w, ws)
  end.

(** [s.split()]: maximal runs of non-whitespace characters, in order. *)
Definition split_ws (s : string) : list string :=
  let '(w, ws) := fields_from s in push_word w ws.

(** [s.split(sep)] for a one-character separator: every occurrence cuts,
    empty pieces are kept, and the result is never empty. *)
Fixpoint split_on (sep : ascii) (s : string) : list string :=
  match s with
  | EmptyString => [EmptyString]
  | String c s' =>
      match split_on sep s' with
      | w :: ws => if Ascii.eqb c sep then EmptyString :: w :: ws
                   else String c w :: ws
      | [] => [String c EmptyString]
      end
  end.

(** [str.lower] on ASCII text: only [A]..[Z] change. *)
Definition lower_char (c : ascii) : ascii :=
  let n := N_of_ascii c in
  if ((65 <=? n) && (n <=? 90))%N then ascii_of_N (n + 32) else c.

Fixpoint lower (s : string) : string :=
  match s with
  | EmptyString => EmptyString
  | String c s' => String (lower_char c) (lower s')
  end.

Definition digit_val (c : ascii) : option Z :=
  let n := N_of_ascii c in
  if ((48 <=? n) && (n <=? 57))%N then Some (Z.of_N n - 48) else None.

(** Digits of a decimal literal after its first digit: each further digit
    may be preceded by exactly one underscore. [acc] is the value so far. *)
Fixpoint digits_tail (acc : Z) (s : string) : option Z :=
  match s with
  | EmptyString => Some acc
  | String c s' =>
      match digit_val c with
      | Some d => digits_tail (10 * acc + d) s'
      | None =>
          if Ascii.eqb c "_" then
            match s' with
            | String c' s'' =>
                match digit_val c' with
                | Some d => digits_tail (10 * acc + d) s''
                | None => None
                end
            | EmptyString => None
            end
          else None
      end
  end.

(** An unsigned decimal literal: a digit, then [digits_tail]. *)
Definition digits (s : string) : option Z :=
  match s with
  | String c s' =>
      match digit_val c with
      | Some d => digits_tail d s'
      | None => None
      end
  | EmptyString => None
  end.

(** The whitespace [int] skips around a numeral. On ASCII text this is the
    C set TAB, LF, VT, FF, CR and SPACE: unlike [str.strip] and [str.split],
    [int] does not skip the separators FS, GS, RS and US, so [int("80\x1f")]
    is a [ValueError]. *)
Definition is_c_space (c : ascii) : bool :=
  let n := N_of_ascii c in
  ((9 <=? n) && (n <=? 13) || (n =? 32))%N.

Fixpoint skip_c_space (s : string) : string :=
  match s with
  | EmptyString => EmptyString
  | String c s' => if is_c_space c then skip_c_space s' else s
  end.

Fixpoint drop_c_space (s : string) : string :=
  match s with
  | EmptyString => EmptyString
  | String c s' =>
      match drop_c_space s' with
      | EmptyString => if is_c_space c then EmptyString else String c EmptyString
      | r => String c r
      end
  end.

(** [sys.get_int_max_str_digits()]: the interpreter's default, which the
    program never changes. *)
Definition max_str_digits : Z := 4300.

(** The number of digit characters of a literal: underscores are not
    counted, leading zeros are. *)
Fixpoint digit_count (s : string) : Z :=
  match s with
  | EmptyString => 0
  | String c s' =>
      (match digit_val c with Some _ => 1 | None => 0 end) + digit_count s'
  end.

(** A decimal literal within the interpreter's limit on digits. *)
Definition literal (s : string) : option Z :=
  match digits s with
  | Some n => if (digit_count s <=? max_str_digits)%Z then Some n else None
  | None => None
  end.

(** [int(s)] on text, base 10: whitespace around the numeral is skipped,
    one sign is allowed, then a decimal literal of at most 4300 digits.
    [None] stands for [ValueError], which is what [int] raises for a
    malformed numeral and for one with too many digits alike. *)
Definition int (s : string) : option Z :=
  match drop_c_space (skip_c_space s) with
  | String "+" r => literal r
  | String "-" r => Z.opp <$> literal r
  | r => literal r
  end.

(** [str(n)] and [f"{n}"] for an integer. *)
Definition str_of_int (n : Z) : string := NilZero.string_of_int (Z.to_int n).

(** Text the ASCII codec can encode. *)
Definition is_ascii_char (c : ascii) : bool := (N_of_ascii c <? 128)%N.

Fixpoint isascii (s : string) : bool :=
  match s with
  | EmptyString => true
  | String c s' => is_ascii_char c && isascii s'
  end.

End PyStr.

(** ** Exceptions, results and the instance state *)

(** The exception classes the program can meet. [ValueError] carries the
    message given to it; the text of a [ValueError] raised by a builtin is
    never looked at by the program, so a short stand-in is used for it. *)
Inductive exn : Type :=
  | ValueError (msg : string)
  | IndexError
  | UnicodeDecodeError
  | UnicodeEncodeError
  | StopIteration.

(** [str(e)] as printed by [main]. The codec errors are turned into a
    [ValueError] before they get there; their text is abridged. *)
Definition exn_str (e : exn) : string :=
  match e with
  | ValueError msg => msg
  | IndexError => "list index out of range"
  | UnicodeDecodeError => "'ascii' codec can't decode byte"
  | UnicodeEncodeError => "'ascii' codec can't encode character"
  | StopIteration => ""
  end.

Inductive result (A : Type) : Type :=
  | Ok (a : A)
  | Raise (e : exn).
Arguments Ok {A} a.
Arguments Raise {A} e.

(** The three dictionaries of a [FlowParser] instance. *)
Record FlowParser : Type := mkFlowParser {
  lookup_dict : gmap (Z * string) string;
  tag_count : gmap string Z;
  traffic_count : gmap string Z
}.

(** What a method can change: the instance, the console, and the report
    file ([None] until it is opened for writing, then its text so far). *)
Record pstate : Type := mkState {
  self : FlowParser;
  console : list string;
  report : option string
}.

(** A method body: it reads and changes the state and either returns a
    value or raises. The state handed back after a [Raise] is the state at
    the point of the raise: nothing is rolled back. *)
Definition M (A : Type) : Type := pstate -> result A * pstate.

Definition ret {A} (a : A) : M A := fun st => (Ok a, st).

Definition raise {A} (e : exn) : M A := fun st => (Raise e, st).

Definition bind {A B} (m : M A) (k : A -> M B) : M B :=
  fun st =>
    match m st with
    | (Ok a, st') => k a st'
    | (Raise e, st') => (Raise e, st')
    end.

(** [try: m  except <classes accepted by handles>: h] *)
Definition try_except {A} (m : M A) (handles : exn -> bool) (h : exn -> M A)
  : M A :=
  fun st =>
    match m st with
    | (Raise e, st') => if handles e then h e st' else (Raise e, st')
    | r => r
    end.

Definition lift {A} (r : result A) : M A := fun st => (r, st).

Definition get_self : M FlowParser := fun st => (Ok (self st), st).

Definition set_self (p : FlowParser) : M unit :=
  fun st => (Ok tt, mkState p (console st) (report st)).

(** [print(line)] *)
Definition print (line : string) : M unit :=
  fun st => (Ok tt, mkState (self st) (console st ++ [line]) (report st)).

Declare Scope py_scope.
Delimit Scope py_scope with py.
Notation "'let*' x ':=' m 'in' k" := (bind m (fun x => k))
  (at level 10, x name, m at level 100, k at level 200) : py_scope.
Notation "m '>>' k" := (bind m (fun _ => k))
  (at level 100, k at level 200, right associativity) : py_scope.
Local Open Scope py_scope.

(** The tests made by [except] clauses. The two codec errors are
    subclasses of [ValueError], so [except ValueError] accepts them too. *)
Definition is_ValueError (e : exn) : bool :=
  match e with
  | ValueError _ | UnicodeDecodeError | UnicodeEncodeError => true
  | _ => false
  end.
Definition is_UnicodeDecodeError (e : exn) : bool :=
  match e with UnicodeDecodeError => true | _ => false end.
Definition is_UnicodeEncodeError (e : exn) : bool :=
  match e with UnicodeEncodeError => true | _ => false end.
Definition is_ValueError_or_IndexError (e : exn) : bool :=
  is_ValueError e || match e with IndexError => true | _ => false end.

(** [d.get(k, dflt)] *)
Definition dict_get `{Countable K} {V} (d : gmap K V) (k : K) (dflt : V) : V :=
  default dflt (d !! k).

(** [fields[i]] on a list: [IndexError] past the end. *)
Definition index {A} (l : list A) (i : nat) : result A :=
  match l !! i with
  | Some x => Ok x
  | None => Raise IndexError
  end.

(** [int(s)] as a fallible step. *)
Definition int_of (s : string) : result Z :=
  match PyStr.int s with
  | Some n => Ok n
  | None => Raise (ValueError "invalid literal for int() with base 10")
  end.

(** ** Text files *)

(** Iterating a file opened with [encoding='ascii'] hands out its lines one
    by one (each with its line terminator) until the decoder meets a byte
    above 127, where the read raises [UnicodeDecodeError]. The decoder works
    through the file block by block, so the lines that end in the blocks
    before the offending one have been handed out by then. A file is
    therefore the list of outcomes of its successive reads; after the last
    one the iterator is exhausted. *)
Inductive read : Type :=
  | Line (text : string)
  | BadByte.

Record file : Type := mkFile {
  getsize : Z;            (* os.path.getsize *)
  reads : list read
}.

(** ** [FlowParser._load_lookups] *)

Definition mapping_limit : Z := 10000.

(** The statements of the inner [try] up to the dictionary store: unpack
    the three comma-separated pieces, convert the port, lower-case the
    protocol, store the tag. Either step before the store can raise
    [ValueError]; then nothing has been stored. *)
Definition store_mapping (line : string) : M unit :=
  match PyStr.split_on "," (PyStr.strip line) with
  | [port; proto; tag] =>
      let* n := lift (int_of port) in
      let* p := get_self in
      set_self (mkFlowParser (<[(n, PyStr.lower proto) := tag]> (lookup_dict p))
                             (tag_count p) (traffic_count p))
  | _ => raise (ValueError "wrong number of values to unpack")
  end.

(** The [for line in f] loop; [num_mappings] is the local counter. The read
    comes first, so a bad byte raises even when the limit has been reached. *)
Fixpoint load_loop (f : list read) (num_mappings : Z) : M unit :=
  match f with
  | [] => ret tt
  | BadByte :: _ => raise UnicodeDecodeError
  | Line line :: f' =>
      if (mapping_limit <=? num_mappings)%Z then
        print "Warning: Reached 10000 mapping limit"            (* break *)
      else if String.eqb (PyStr.strip line) "" then
        load_loop f' num_mappings                               (* continue *)
      else
        let* n :=
          try_except
            (store_mapping line >> ret (num_mappings + 1)%Z)
            is_ValueError
            (fun _ => print ("Skipping bad line: " +:+ PyStr.strip line) >>
                      ret num_mappings) in
        load_loop f' n
  end.

(** [next(f)]: the first read is consumed and dropped. *)
Definition next_line (f : list read) : M (list read) :=
  match f with
  | [] => raise StopIteration
  | BadByte :: _ => raise UnicodeDecodeError
  | Line _ :: f' => ret f'
  end.

Definition _load_lookups (lookups : file) : M unit :=
  try_except
    (let* f := next_line (reads lookups) in load_loop f 0)
    is_UnicodeDecodeError
    (fun _ => raise (ValueError "Lookup file must be ASCII text")).

(** [FlowParser.__init__] *)
Definition __init__ (lookups : file) : M unit :=
  set_self (mkFlowParser ∅ ∅ ∅) >> _load_lookups lookups.

(** ** [FlowParser._parse_line] *)

Definition proto_map : gmap string string :=
  list_to_map [("6", "tcp"); ("17", "udp"); ("1", "icmp"); ("50", "esp");
               ("51", "ah")].

Definition _parse_line (line : string) : M (option (Z * string)) :=
  try_except
    (let fields := PyStr.split_ws (PyStr.strip line) in
     if (Z.of_nat (length fields) <? 14)%Z then ret None
     else
       let* version := lift (index fields 0) in
       if negb (String.eqb version "2") then ret None
       else
         let* f6 := lift (index fields 6) in
         let* dst_port := lift (int_of f6) in
         let* f7 := lift (index fields 7) in
         let protocol := dict_get proto_map f7 ("proto_" +:+ f7) in
         ret (Some (dst_port, protocol)))
    is_ValueError_or_IndexError
    (fun _ => ret None).

(** ** [FlowParser.process_logs] *)

Definition max_log_size : Z := 10 * 1024 * 1024.

(** The body of the loop for one line. *)
Definition count_line (line : string) : M unit :=
  let* result := _parse_line line in
  match result with
  | Some (port, proto) =>
      let traffic_key := PyStr.str_of_int port +:+ "," +:+ proto in
      let* p := get_self in
      set_self (mkFlowParser (lookup_dict p) (tag_count p)
                  (<[traffic_key := (dict_get (traffic_count p) traffic_key 0 + 1)%Z]>
                     (traffic_count p))) >>
      let* p := get_self in
      let tag := dict_get (lookup_dict p) (port, proto) "Untagged" in
      set_self (mkFlowParser (lookup_dict p)
                  (<[tag := (dict_get (tag_count p) tag 0 + 1)%Z]> (tag_count p))
                  (traffic_count p))
  | None => ret tt
  end.

Fixpoint log_loop (f : list read) : M unit :=
  match f with
  | [] => ret tt
  | BadByte :: _ => raise UnicodeDecodeError
  | Line line :: f' => count_line line >> log_loop f'
  end.

Definition process_logs (log : file) : M unit :=
  if (max_log_size <? getsize log)%Z then raise (ValueError "Log file too large (>10MB)")
  else
    try_except (log_loop (reads log))
      is_UnicodeDecodeError
      (fun _ => raise (ValueError "Log file must be ASCII text")).

(** ** [FlowParser.write_report] *)

Definition nl : string := String "010" EmptyString.

(** [open(output_path, 'w', encoding='ascii')]: the file is created empty. *)
Definition fopen_w : M unit :=
  fun st => (Ok tt, mkState (self st) (console st) (Some EmptyString)).

(** [f.write(s)]: the ASCII codec refuses any character above 127. *)
Definition fwrite (s : string) : M unit :=
  fun st =>
    if PyStr.isascii s then
      (Ok tt, mkState (self st) (console st)
                      (Some (default EmptyString (report st) +:+ s)))
    else (Raise UnicodeEncodeError, st).

(** Order of [(key, count)] tuples: the keys decide unless they are equal,
    then the counts do. Strings compare character by character. *)
Definition item_le (a b : string * Z) : Prop :=
  if decide (a.1 = b.1) then (a.2 <= b.2)%Z else String.le a.1 b.1.

#[global] Instance item_le_dec : RelDecision item_le.
Proof. intros a b. unfold item_le. destruct (decide (a.1 = b.1)); apply _. Defined.

(** [sorted(d.items())] *)
Definition sorted_items (d : gmap string Z) : list (string * Z) :=
  merge_sort item_le (map_to_list d).

Definition row (item : string * Z) : string :=
  item.1 +:+ "," +:+ PyStr.str_of_int item.2 +:+ nl.

Fixpoint write_rows (items : list (string * Z)) : M unit :=
  match items with
  | [] => ret tt
  | item :: items' => fwrite (row item) >> write_rows items'
  end.

Definition write_report : M unit :=
  try_except
    (fopen_w >>
     fwrite ("Tag Counts:" +:+ nl) >>
     fwrite ("Tag,Count" +:+ nl) >>
     (let* p := get_self in write_rows (sorted_items (tag_count p))) >>
     fwrite (nl +:+ "Port/Protocol Combination Counts:" +:+ nl) >>
     fwrite ("Port,Protocol,Count" +:+ nl) >>
     (let* p := get_self in write_rows (sorted_items (traffic_count p))))
    is_UnicodeEncodeError
    (fun _ => raise (ValueError "Cannot write non-ASCII characters")).

(** ** [main] *)

Definition max_lookup_size : Z := 1 * 1024 * 1024.

Definition usage : string :=
  "Usage: python flow_parser.py <log_file> <lookup_file> <output_file>".

(** The [try] block of [main]. [fs] resolves a path to the file it names;
    the files named on the command line are taken to exist. *)
Definition main_try (argv : list string) (fs : string -> file) : M unit :=
  let* log_file := lift (index argv 1) in
  let* lookup_file := lift (index argv 2) in
  let* output_file := lift (index argv 3) in
  if (max_log_size <? getsize (fs log_file))%Z then
    raise (ValueError "Flow log file too large")
  else if (max_lookup_size <? getsize (fs lookup_file))%Z then
    raise (ValueError "Lookup file too large")
  else
    __init__ (fs lookup_file) >>
    process_logs (fs log_file) >>
    write_report.

(** [main] returns the exit status of the process with the final state. *)
Definition main (argv : list string) (fs : string -> file)
  : pstate -> Z * pstate :=
  fun st =>
    if negb (Nat.eqb (length argv) 4) then (1%Z, (print usage st).2)
    else
      match main_try argv fs st with
      | (Ok _, st') => (0%Z, st')
      | (Raise e, st') => (1%Z, (print ("Error: " +:+ exn_str e) st').2)
      end.

(** The state of a process that has not yet built a parser. *)
Definition start : pstate := mkState (mkFlowParser ∅ ∅ ∅) [] None.

Module Sample.
Definition lookups : file :=
  mkFile 51 [Line ("dstport,protocol,tag" +:+ nl); Line ("80,TCP,web" +:+ nl);
             Line nl; Line ("oops" +:+ nl); Line ("25,tcp,sv_P1" +:+ nl)].
Definition rec (port proto : string) : string :=
  "2 123456789012 eni-0a1b2c3d 10.0.1.201 198.51.100.2 443 " +:+ port +:+ " "
  +:+ proto +:+ " 25 20000 1620140761 1620140821 ACCEPT OK" +:+ nl.
Definition log : file :=
  mkFile 620 [Line (rec "80" "6"); Line (rec "2" "6"); Line (rec "10" "6");
              Line ("3 bad" +:+ nl); Line (rec "80" "6"); Line (rec "70000" "99");
              Line (rec "x" "6")].
Definition fs (path : string) : file :=
  if String.eqb path "lookup.csv" then lookups else log.
Definition argv : list string := ["flow_parser.py"; "log.txt"; "lookup.csv"; "out.txt"].
Definition counters : pstate :=
  mkState (mkFlowParser ∅
             (<["web" := 1%Z]> (<["Untagged" := 2%Z]> ∅))
             (<["2,tcp" := 1%Z]> (<["80,tcp" := 1%Z]> (<["10,tcp" := 1%Z]> ∅))))
          [] None.
End Sample.

(** A lookup file with a header and exactly 10,000 mapping lines (110,021
    bytes), and two further mapping lines that may follow it. *)
Module Full.
Definition exact : file :=
  mkFile 110021
    (Line ("dstport,protocol,tag" +:+ nl)
     :: replicate (Z.to_nat 10000) (Line ("80,tcp,web" +:+ nl))).
Definition extra : list read :=
  [Line ("443,tcp,secure" +:+ nl); Line ("25,tcp,mail" +:+ nl)].
End Full.

(** A log of 21,421 bytes: 210 copies of one record of 102 bytes and a
    final byte 255. With blocks of 8,192 bytes the 160 lines that end in
    the first two blocks are handed out before the third block fails to
    decode. *)
Module BadLog.
Definition log : file :=
  mkFile 21421 (replicate 160 (Line (Sample.rec "80" "6")) ++ [BadByte]).
Definition fs (path : string) : file :=
  if String.eqb path "lookup.csv" then Sample.lookups else log.
End BadLog.

(** A file system whose lookup file is empty. *)
Module NoHeader.
Definition fs (path : string) : file :=
  if String.eqb path "lookup.csv" then mkFile 0 [] else Sample.log.
End NoHeader.

(** ** Reference descriptions used in the statements *)

(** The protocol table written out entry by entry, to be compared with
    the dictionary [proto_map] that the code consults. *)
Definition protocol_name (f7 : string) : string :=
  if String.eqb f7 "6" then "tcp"
  else if String.eqb f7 "17" then "udp"
  else if String.eqb f7 "1" then "icmp"
  else if String.eqb f7 "50" then "esp"
  else if String.eqb f7 "51" then "ah"
  else "proto_" +:+ f7.

(** The outcome of parsing described on the list of fields, without
    exceptions, to be compared with a run of [_parse_line]. *)
Definition parse_fields (fields : list string) : option (Z * string) :=
  if (Z.of_nat (length fields) <? 14)%Z then None
  else
    match fields !! 0%nat, fields !! 6%nat, fields !! 7%nat with
    | Some v, Some f6, Some f7 =>
        if String.eqb v "2" then
          match PyStr.int f6 with
          | Some port => Some (port, protocol_name f7)
          | None => None
          end
        else None
    | _, _, _ => None
    end.

(** The value a line parses to, read off a run of [_parse_line]. *)
Definition parsed (line : string) : option (Z * string) :=
  match (_parse_line line start).1 with
  | Ok r => r
  | Raise _ => None
  end.

(** [d[k] = d.get(k, 0) + 1] as a function on the dictionary. *)
Definition bump (k : string) (d : gmap string Z) : gmap string Z :=
  <[k := (dict_get d k 0 + 1)%Z]> d.

(** The composite key under which a parsed pair is counted. *)
Definition traffic_key (port : Z) (proto : string) : string :=
  PyStr.str_of_int port +:+ "," +:+ proto.

(** The tag a parsed pair resolves to in a lookup table. *)
Definition resolve (table : gmap (Z * string) string) (port : Z)
    (proto : string) : string :=
  match table !! (port, proto) with
  | Some tag => tag
  | None => "Untagged"
  end.

(** The instance after one line has gone through the loop body. *)
Definition counted (p : FlowParser) (line : string) : FlowParser :=
  match parsed line with
  | Some (port, proto) =>
      mkFlowParser (lookup_dict p)
        (bump (resolve (lookup_dict p) port proto) (tag_count p))
        (bump (traffic_key port proto) (traffic_count p))
  | None => p
  end.

(** The lines a loop gets to see: those read before the first bad byte. *)
Fixpoint lines_read (f : list read) : list string :=
  match f with
  | Line line :: f' => line :: lines_read f'
  | _ => []
  end.

(** Whether every read of the file decodes. *)
Fixpoint decodes (f : list read) : bool :=
  match f with
  | [] => true
  | Line _ :: f' => decodes f'
  | BadByte :: _ => false
  end.

(** Number of lines of a list that the parser accepts. *)
Definition accepted (lines : list string) : Z :=
  Z.of_nat (length (filter (fun line => is_Some (parsed line)) lines)).

(** Sum of the counts stored in a dictionary. *)
Definition count_sum (d : gmap string Z) : Z :=
  map_fold (fun _ v acc => (v + acc)%Z) 0%Z d.

(** The three ways the loader can treat a line it examines. *)
Inductive line_kind : Type :=
  | Blank
  | Malformed
  | Mapping (key : Z * string) (tag : string).

(** How a lookup line is treated, read off the text: blank after
    stripping; not exactly three comma-separated pieces or a port that is
    no integer; or a mapping. To be compared with the loop body. *)
Definition classify (line : string) : line_kind :=
  let s := PyStr.strip line in
  if String.eqb s "" then Blank
  else
    match PyStr.split_on "," s with
    | [port; proto; tag] =>
        match PyStr.int port with
        | Some n => Mapping (n, PyStr.lower proto) tag
        | None => Malformed
        end
    | _ => Malformed
    end.

Definition is_mapping (r : read) : bool :=
  match r with
  | Line line => match classify line with Mapping _ _ => true | _ => false end
  | BadByte => false
  end.

(** Number of mapping lines among some reads. *)
Definition count_mappings (f : list read) : Z :=
  Z.of_nat (length (filter (fun r => is_mapping r = true) f)).

Definition limit_warning : string := "Warning: Reached 10000 mapping limit".

(** The instance with another lookup table. *)
Definition with_lookup (p : FlowParser) (t : gmap (Z * string) string)
  : FlowParser :=
  mkFlowParser t (tag_count p) (traffic_count p).

(** The state after one more console line. *)
Definition printed (st : pstate) (line : string) : pstate :=
  mkState (self st) (console st ++ [line]) (report st).

(** No stored count is below one. *)
Definition positive_counts (d : gmap string Z) : Prop :=
  forall k v, d !! k = Some v -> (1 <= v)%Z.

(** The rows of one report section, one after the other. *)
Definition rows_text (items : list (string * Z)) : string :=
  foldr (fun item acc => row item +:+ acc) EmptyString items.

(** Strictly ascending order of the keys, character by character. *)
Definition key_lt (a b : string * Z) : Prop := String.ltb a.1 b.1 = true.

(** The text of a report whose sections hold the given rows. *)
Definition layout (tags traffic : list (string * Z)) : string :=
  "Tag Counts:" +:+ nl +:+
  "Tag,Count" +:+ nl +:+
  rows_text tags +:+
  nl +:+
  "Port/Protocol Combination Counts:" +:+ nl +:+
  "Port,Protocol,Count" +:+ nl +:+
  rows_text traffic.

(** What the ASCII decoder guarantees about the lines it hands out. *)
Definition ascii_reads (f : list read) : Prop :=
  Forall (fun r => match r with
                   | Line text => PyStr.isascii text = true
                   | BadByte => True
                   end) f.

(** Every key of both counters can be encoded. *)
Definition ascii_counters (p : FlowParser) : Prop :=
  map_Forall (fun tag _ => PyStr.isascii tag = true) (tag_count p) /\
  map_Forall (fun key _ => PyStr.isascii key = true) (traffic_count p).

(** Every tag of the table can be encoded. *)
Definition ascii_table (t : gmap (Z * string) string) : Prop :=
  map_Forall (fun _ tag => PyStr.isascii tag = true) t.

(** A lookup file of 22,022 bytes: a header of 21 bytes, 2,000 mapping
    lines of 11 bytes and a final byte 255. With blocks of 8,192 bytes the
    header and the 1,487 mapping lines that end in the first two blocks are
    handed out before the third block fails to decode. *)
Module BadLookup.
Definition decoded : list read :=
  Line ("dstport,protocol,tag" +:+ nl)
  :: replicate 1487 (Line ("80,tcp,web" +:+ nl)).
Definition lookups : file := mkFile 22022 (decoded ++ [BadByte]).
Definition fs (path : string) : file :=
  if String.eqb path "lookup.csv" then lookups else Sample.log.
End BadLookup.

(** A file system with a log of exactly the limit size and a lookup file
    one byte above its limit; the contents play no part. *)
Module Oversize.
Definition fs (path : string) : file :=
  if String.eqb path "lookup.csv" then mkFile 1048577 [] else mkFile 10485760 [].
End Oversize.

(** Counters with a tag that holds the character 233. *)
Module Latin1.
Definition counters : pstate :=
  mkState (mkFlowParser ∅
             (<[String "233" "" := 1%Z]> (<["Untagged" := 2%Z]> ∅)) ∅)
          [] None.
End Latin1.

(** ** Reference descriptions for the further properties *)

(** Whether a line is accepted and resolves to a given tag in a table. *)
Definition resolves_to (table : gmap (Z * string) string) (tag : string)
    (line : string) : bool :=
  match parsed line with
  | Some (port, proto) => bool_decide (resolve table port proto = tag)
  | None => false
  end.

(** Whether a line is accepted as a given port and protocol. *)
Definition parses_to (port : Z) (proto : string) (line : string) : bool :=
  bool_decide (parsed line = Some (port, proto)).

(** How many elements of a list pass a test. *)
Definition count_if {A} (test : A -> bool) (l : list A) : Z :=
  Z.of_nat (length (filter (fun x => test x = true) l)).

(** The entry a count of occurrences leaves in a counter that started
    empty: none for zero. *)
Definition entry (n : Z) : option Z := if (n =? 0)%Z then None else Some n.

(** The table after the loader has examined one read. *)
Definition stored (table : gmap (Z * string) string) (r : read)
  : gmap (Z * string) string :=
  match r with
  | Line line =>
      match classify line with
      | Mapping key tag => <[key := tag]> table
      | _ => table
      end
  | BadByte => table
  end.

(** A text without a given character. *)
Fixpoint lacks (c : ascii) (s : string) : bool :=
  match s with
  | EmptyString => true
  | String x s' => negb (Ascii.eqb x c) && lacks c s'
  end.

(** * Properties *)

(** ** The text primitives on examples *)

Example split_ws_ex :
  PyStr.split_ws ("  2   a" +:+ String "009" ("b" +:+ String "010" ""))
  = ["2"; "a"; "b"].
Proof. reflexivity. Qed.

Example split_on_ex : PyStr.split_on "," "80,tcp,,x" = ["80"; "tcp"; ""; "x"].
Proof. reflexivity. Qed.

Example int_ex :
  PyStr.int " +1_000 " = Some 1000 /\ PyStr.int "-0" = Some 0 /\
  PyStr.int "1__0" = None /\ PyStr.int "0x10" = None /\
  PyStr.int "" = None /\ PyStr.int "007" = Some 7 /\ PyStr.int "_1" = None /\
  PyStr.int "1_" = None /\ PyStr.int "- 1" = None.
Proof. repeat split; reflexivity. Qed.

(** [int] and the separators FS..US. *)
Example int_space_ex :
  PyStr.int ("80" +:+ String "031" "") = None /\
  PyStr.int (String "028" "80") = None /\
  PyStr.int (String "009" "80" +:+ String "011" "") = Some 80 /\
  PyStr.strip (String "028" "80" +:+ String "031" "") = "80".
Proof. repeat split; reflexivity. Qed.

Section IntLimit.

Lemma space_not_digit c :
  PyStr.is_c_space c = true -> PyStr.digit_val c = None.
Proof.
  destruct c as [[] [] [] [] [] [] [] []]; vm_compute; congruence.
Qed.

Lemma digit_count_bounds s :
  (0 <= PyStr.digit_count s <= Z.of_nat (String.length s))%Z.
Proof.
  induction s as [|c s IH]; simpl; [lia|].
  destruct (PyStr.digit_val c); lia.
Qed.

Lemma digit_count_skip s :
  PyStr.digit_count (PyStr.skip_c_space s) = PyStr.digit_count s.
Proof.
  induction s as [|c s IH]; [reflexivity|]. simpl.
  destruct (PyStr.is_c_space c) eqn:Hc; [|reflexivity].
  rewrite IH, (space_not_digit c Hc). reflexivity.
Qed.

Lemma digit_count_drop s :
  PyStr.digit_count (PyStr.drop_c_space s) = PyStr.digit_count s.
Proof.
  induction s as [|c s IH]; [reflexivity|]. simpl.
  destruct (PyStr.drop_c_space s) as [|c' r].
  - rewrite <- IH. destruct (PyStr.is_c_space c) eqn:Hc; simpl.
    + rewrite (space_not_digit c Hc). reflexivity.
    + reflexivity.
  - simpl in *. rewrite IH. reflexivity.
Qed.

Lemma literal_limit s n :
  PyStr.literal s = Some n ->
  (PyStr.digit_count s <= PyStr.max_str_digits)%Z.
Proof.
  unfold PyStr.literal. destruct (PyStr.digits s); [|discriminate].
  destruct (Z.leb_spec (PyStr.digit_count s) PyStr.max_str_digits);
    [trivial|discriminate].
Qed.

(** [int] accepts no numeral of more than 4300 digits, whatever surrounds
    the digits. *)
Lemma int_digit_limit s n :
  PyStr.int s = Some n -> (PyStr.digit_count s <= 4300)%Z.
Proof.
  unfold PyStr.int.
  rewrite <- (digit_count_skip s), <- (digit_count_drop (PyStr.skip_c_space s)).
  destruct (PyStr.drop_c_space (PyStr.skip_c_space s)) as [|c r].
  - discriminate.
  - destruct c as [[] [] [] [] [] [] [] []];
      (intros H; apply literal_limit in H; exact H)
      || (intros H; destruct (PyStr.literal r) as [m|] eqn:Hm;
          [|discriminate]; apply literal_limit in Hm; exact Hm).
Qed.

Lemma digits_tail_all acc s :
  PyStr.digit_count s = Z.of_nat (String.length s) ->
  exists n, PyStr.digits_tail acc s = Some n.
Proof.
  revert acc. induction s as [|c s IH]; intros acc Hall; [simpl; eauto|].
  simpl in *. pose proof (digit_count_bounds s).
  destruct (PyStr.digit_val c) as [d|]; [|lia].
  apply IH. lia.
Qed.

Lemma drop_all_digits s :
  PyStr.digit_count s = Z.of_nat (String.length s) -> PyStr.drop_c_space s = s.
Proof.
  induction s as [|c s IH]; intros Hall; [reflexivity|].
  simpl in *. pose proof (digit_count_bounds s).
  destruct (PyStr.digit_val c) as [d|] eqn:Hd; [|lia].
  rewrite IH by lia.
  destruct s; [|reflexivity].
  destruct (PyStr.is_c_space c) eqn:Hc; [|reflexivity].
  rewrite (space_not_digit c Hc) in Hd. discriminate.
Qed.

(** A non-empty run of at most 4300 digits is accepted. *)
Lemma int_all_digits c r :
  PyStr.digit_count (String c r) = Z.of_nat (String.length (String c r)) ->
  (PyStr.digit_count (String c r) <= 4300)%Z ->
  exists n, PyStr.int (String c r) = Some n.
Proof.
  intros Hall Hmax. unfold PyStr.int.
  assert (Hc : exists d, PyStr.digit_val c = Some d).
  { simpl in Hall. pose proof (digit_count_bounds r).
    destruct (PyStr.digit_val c); [eauto|lia]. }
  destruct Hc as [d Hd].
  assert (Hskip : PyStr.skip_c_space (String c r) = String c r).
  { simpl. destruct (PyStr.is_c_space c) eqn:Hc; [|reflexivity].
    rewrite (space_not_digit c Hc) in Hd. discriminate. }
  rewrite Hskip, (drop_all_digits _ Hall).
  assert (Hlit : exists n, PyStr.literal (String c r) = Some n).
  { unfold PyStr.literal. simpl PyStr.digits. rewrite Hd.
    destruct (digits_tail_all d r) as [n Hn].
    { simpl in Hall. rewrite Hd in Hall. lia. }
    rewrite Hn. exists n.
    destruct (Z.leb_spec (PyStr.digit_count (String c r)) PyStr.max_str_digits)
      as [_|Hgt]; [reflexivity|unfold PyStr.max_str_digits in Hgt; lia]. }
  destruct c as [[] [] [] [] [] [] [] []]; try exact Hlit;
    vm_compute in Hd; discriminate.
Qed.

End IntLimit.

(** The limit on digits at its boundary: 4300 nines are a number, 4301 are
    not, and leading zeros count. *)
Example int_limit_ex :
  (exists n, PyStr.int (String "9" (String.concat "" (repeat "9" 4299)))
             = Some n) /\
  PyStr.int (String.concat "" (repeat "9" 4301)) = None /\
  PyStr.int (String.concat "" (repeat "0" 4301)) = None.
Proof.
  split; [|split].
  - apply int_all_digits; vm_compute; [reflexivity|discriminate].
  - destruct (PyStr.int _) as [n|] eqn:H; [|reflexivity].
    apply int_digit_limit in H. vm_compute in H. contradiction H. reflexivity.
  - destruct (PyStr.int _) as [n|] eqn:H; [|reflexivity].
    apply int_digit_limit in H. vm_compute in H. contradiction H. reflexivity.
Qed.

(** A lookup line whose port piece ends in the separator US is no mapping:
    [str.strip] leaves the separator alone inside the line and [int]
    refuses it. *)
Example classify_ex :
  classify ("80,tcp,web" +:+ nl) = Mapping (80, "tcp") "web" /\
  classify (" 80 ,TCP,web" +:+ nl) = Mapping (80, "tcp") "web" /\
  classify ("80" +:+ String "031" ",tcp,web" +:+ nl) = Malformed /\
  classify ("80,tcp,web" +:+ String "031" nl) = Mapping (80, "tcp") "web" /\
  classify (String "031" nl) = Blank.
Proof. repeat (split; [vm_compute; reflexivity|]). vm_compute. reflexivity. Qed.

Example str_of_int_ex :
  PyStr.str_of_int 80 = "80" /\ PyStr.str_of_int (-7) = "-7" /\
  PyStr.str_of_int 0 = "0".
Proof. repeat split; vm_compute; reflexivity. Qed.

(** ** Running a method body *)

Ltac run :=
  unfold bind, ret, raise, lift, try_except, get_self, set_self, print,
         fopen_w in *;
  simpl in *.


Section Splitting.

Lemma split_ws_lstrip s : PyStr.split_ws (PyStr.lstrip s) = PyStr.split_ws s.
Proof.
  induction s as [|c s IH]; [reflexivity|].
  simpl. destruct (PyStr.isspace c) eqn:Hc; [|reflexivity].
  rewrite IH. unfold PyStr.split_ws. simpl.
  destruct (PyStr.fields_from s) as [w ws]. rewrite Hc. reflexivity.
Qed.

Lemma fields_from_rstrip s :
  PyStr.fields_from (PyStr.rstrip s) = PyStr.fields_from s.
Proof.
  induction s as [|c s IH]; [reflexivity|].
  simpl. destruct (PyStr.rstrip s) as [|c' r] eqn:Hr.
  - rewrite <- IH. simpl.
    destruct (PyStr.isspace c) eqn:Hc; simpl; rewrite ?Hc; reflexivity.
  - rewrite <- IH. reflexivity.
Qed.

(** Stripping before splitting on whitespace changes nothing. *)
Lemma split_ws_strip s : PyStr.split_ws (PyStr.strip s) = PyStr.split_ws s.
Proof.
  unfold PyStr.strip. rewrite <- (split_ws_lstrip s).
  unfold PyStr.split_ws. rewrite fields_from_rstrip. reflexivity.
Qed.

End Splitting.


Lemma proto_map_get f7 :
  dict_get proto_map f7 ("proto_" +:+ f7) = protocol_name f7.
Proof.
  unfold dict_get, proto_map, protocol_name. simpl.
  repeat match goal with
         | |- context [String.eqb f7 ?k] =>
             destruct (String.eqb_spec f7 k) as [->|?];
             [ vm_compute; reflexivity | rewrite lookup_insert_ne by congruence ]
         end.
  rewrite lookup_empty. reflexivity.
Qed.


Lemma _parse_line_run line st :
  _parse_line line st = (Ok (parse_fields (PyStr.split_ws line)), st).
Proof.
  unfold _parse_line, parse_fields. rewrite split_ws_strip.
  set (fields := PyStr.split_ws line). run.
  destruct (Z.of_nat (length fields) <? 14)%Z eqn:Hlen; [reflexivity|].
  unfold index, int_of.
  destruct (fields !! 0%nat) as [v|] eqn:H0; simpl.
  2:{ destruct (fields !! 6%nat), (fields !! 7%nat); reflexivity. }
  destruct (String.eqb v "2") eqn:Hv; simpl.
  2:{ destruct (fields !! 6%nat), (fields !! 7%nat); reflexivity. }
  destruct (fields !! 6%nat) as [f6|] eqn:H6; simpl.
  2:{ destruct (fields !! 7%nat); reflexivity. }
  destruct (PyStr.int f6) as [port|] eqn:Hint; simpl.
  2:{ destruct (fields !! 7%nat); reflexivity. }
  destruct (fields !! 7%nat) as [f7|] eqn:H7; simpl; [|reflexivity].
  rewrite proto_map_get. reflexivity.
Qed.

Lemma parsed_eq line : parsed line = parse_fields (PyStr.split_ws line).
Proof. unfold parsed. rewrite _parse_line_run. reflexivity. Qed.

(** ** The per-line parser *)

Lemma parse_fields_Some fields port proto :
  parse_fields fields = Some (port, proto) <->
  (14 <= length fields)%nat /\ fields !! 0%nat = Some "2" /\
  exists f6 f7, fields !! 6%nat = Some f6 /\ fields !! 7%nat = Some f7 /\
                PyStr.int f6 = Some port /\ proto = protocol_name f7.
Proof.
  unfold parse_fields.
  destruct (Z.ltb_spec (Z.of_nat (length fields)) 14) as [Hlt|Hge].
  { split; [discriminate|]. intros [Hlen _]. lia. }
  destruct (fields !! 0%nat) as [v|] eqn:H0.
  2:{ split; [discriminate|]. intros (_ & Hv & _). discriminate. }
  destruct (fields !! 6%nat) as [f6|] eqn:H6.
  2:{ split; [discriminate|]. intros (_ & _ & f6 & f7 & Hf6 & _). discriminate. }
  destruct (fields !! 7%nat) as [f7|] eqn:H7.
  2:{ split; [discriminate|]. intros (_ & _ & ? & f7 & _ & Hf7 & _). discriminate. }
  destruct (String.eqb_spec v "2") as [->|Hv].
  2:{ split; [discriminate|]. intros (_ & Hv' & _). congruence. }
  destruct (PyStr.int f6) as [p|] eqn:Hint.
  - split.
    + intros [= <- <-]. split; [lia|]. split; [reflexivity|]. eauto 10.
    + intros (_ & _ & f6' & f7' & [= <-] & [= <-] & Hp & ->). congruence.
  - split; [discriminate|].
    intros (_ & _ & f6' & f7' & [= <-] & _ & Hp & _). congruence.
Qed.

Lemma parse_fields_None fields :
  parse_fields fields = None <->
  (length fields < 14)%nat \/ fields !! 0%nat <> Some "2" \/
  exists f6, fields !! 6%nat = Some f6 /\ PyStr.int f6 = None.
Proof.
  split.
  - unfold parse_fields.
    destruct (Z.ltb_spec (Z.of_nat (length fields)) 14) as [Hlt|Hge];
      [intros _; left; lia|].
    destruct (lookup_lt_is_Some_2 fields 0%nat) as [v Hv]; [lia|].
    destruct (lookup_lt_is_Some_2 fields 6%nat) as [f6 H6]; [lia|].
    destruct (lookup_lt_is_Some_2 fields 7%nat) as [f7 H7]; [lia|].
    rewrite Hv, H6, H7.
    destruct (String.eqb_spec v "2") as [->|Hne].
    + destruct (PyStr.int f6) eqn:Hint; [discriminate|].
      intros _. right; right. eauto.
    + intros _. right; left. congruence.
  - intros H. destruct (parse_fields fields) as [[port proto]|] eqn:Hp;
      [|reflexivity].
    apply parse_fields_Some in Hp
      as (Hlen & H0 & f6 & f7 & H6 & H7 & Hint & _).
    destruct H as [H|[H|(f6' & H6' & Hnone)]]; [lia|congruence|congruence].
Qed.

(** C2. [_parse_line] never raises and leaves the instance alone. It
    returns [None] exactly when the line has fewer than 14
    whitespace-separated fields, or its first field is not ["2"], or its
    field 6 is not a decimal integer for [int] (which refuses a malformed
    numeral and one of more than 4300 digits alike); otherwise it returns
    the integer value of field 6 with the protocol name of field 7, taken
    from the table 6, 17, 1, 50, 51 and rendered as [proto_<value>] for any
    other value. *)
Theorem parse_line_exact (line : string) (st : pstate) :
  let fields := PyStr.split_ws line in
  exists r : option (Z * string),
    _parse_line line st = (Ok r, st) /\
    (r = None <->
       (length fields < 14)%nat \/ fields !! 0%nat <> Some "2" \/
       exists f6, fields !! 6%nat = Some f6 /\ PyStr.int f6 = None) /\
    (forall port proto,
       r = Some (port, proto) <->
       (14 <= length fields)%nat /\ fields !! 0%nat = Some "2" /\
       exists f6 f7, fields !! 6%nat = Some f6 /\ fields !! 7%nat = Some f7 /\
                     PyStr.int f6 = Some port /\ proto = protocol_name f7) /\
    protocol_name "6" = "tcp" /\ protocol_name "17" = "udp" /\
    protocol_name "1" = "icmp" /\ protocol_name "50" = "esp" /\
    protocol_name "51" = "ah" /\
    (forall v, v ∉ ["6"; "17"; "1"; "50"; "51"] ->
               protocol_name v = "proto_" +:+ v).
Proof.
  intros fields. exists (parse_fields fields).
  split; [apply _parse_line_run|].
  split; [apply parse_fields_None|].
  split; [intros; apply parse_fields_Some|].
  repeat (split; [reflexivity|]).
  intros v Hv. unfold protocol_name.
  repeat match goal with
         | |- context [String.eqb v ?k] =>
             destruct (String.eqb_spec v k) as [->|?];
             [ exfalso; apply Hv; set_solver | ]
         end.
  reflexivity.
Qed.

(** ** The aggregation loop *)

Lemma state_eta st : mkState (self st) (console st) (report st) = st.
Proof. destruct st; reflexivity. Qed.

Lemma count_line_run line st :
  count_line line st =
  (Ok tt, mkState (counted (self st) line) (console st) (report st)).
Proof.
  unfold count_line, counted. rewrite parsed_eq.
  unfold bind at 1. rewrite _parse_line_run.
  destruct (parse_fields (PyStr.split_ws line)) as [[port proto]|].
  - run. unfold bump, resolve, traffic_key, dict_get.
    destruct (lookup_dict (self st) !! (port, proto)); reflexivity.
  - run. rewrite state_eta. reflexivity.
Qed.

Lemma log_loop_run f st :
  log_loop f st =
  (if decodes f then Ok tt else Raise UnicodeDecodeError,
   mkState (foldl counted (self st) (lines_read f)) (console st) (report st)).
Proof.
  revert st. induction f as [|[line|] f IH]; intros st; simpl.
  - run. rewrite state_eta. reflexivity.
  - unfold bind. rewrite count_line_run, IH. reflexivity.
  - run. rewrite state_eta. reflexivity.
Qed.

Lemma bump_lookup k d : bump k d !! k = Some (dict_get d k 0 + 1)%Z.
Proof. apply lookup_insert_eq. Qed.



(** ** No range check on the destination port *)

(** C3, as the code behaves: a line with at least 14 fields and version
    ["2"] whose field 6 [int] converts to [n] is accepted with port [n],
    also when [n] is negative or above 65535, and is counted under
    ["<n>,<proto>"]. No range check is made on the port; the only bound is
    the one of [int] itself, 4300 digits. *)
Theorem parse_line_any_port (line : string) (st : pstate) (f6 f7 : string)
    (n : Z) :
  (14 <= length (PyStr.split_ws line))%nat ->
  PyStr.split_ws line !! 0%nat = Some "2" ->
  PyStr.split_ws line !! 6%nat = Some f6 ->
  PyStr.split_ws line !! 7%nat = Some f7 ->
  PyStr.int f6 = Some n ->
  _parse_line line st = (Ok (Some (n, protocol_name f7)), st) /\
  traffic_count (self (count_line line st).2)
    !! (PyStr.str_of_int n +:+ "," +:+ protocol_name f7)
  = Some (dict_get (traffic_count (self st))
            (PyStr.str_of_int n +:+ "," +:+ protocol_name f7) 0 + 1)%Z.
Proof.
  intros Hlen H0 H6 H7 Hint.
  assert (Hp : parse_fields (PyStr.split_ws line) = Some (n, protocol_name f7)).
  { apply parse_fields_Some. eauto 10. }
  split.
  - rewrite _parse_line_run, Hp. reflexivity.
  - rewrite count_line_run. simpl. unfold counted.
    rewrite parsed_eq, Hp. simpl. apply bump_lookup.
Qed.

Lemma parse_line_any_port_witness :
  _parse_line (Sample.rec "-1" "17") start = (Ok (Some (-1, "udp")%Z), start) /\
  traffic_count (self (count_line (Sample.rec "-1" "17") start).2) !! "-1,udp"
  = Some 1%Z.
Proof.
  exact (parse_line_any_port (Sample.rec "-1" "17") start "-1" "17" (-1)%Z
           ltac:(vm_compute; lia) eq_refl eq_refl eq_refl eq_refl).
Defined.

(** C3 as stated fails: port 70000 lies outside the 16-bit range, yet the
    line is accepted and counted. *)
Lemma port_out_of_range_accepted :
  PyStr.split_ws (Sample.rec "70000" "6") !! 6%nat = Some "70000" /\
  PyStr.int "70000" = Some 70000%Z /\ (65535 < 70000)%Z /\
  _parse_line (Sample.rec "70000" "6") start
    = (Ok (Some (70000%Z, "tcp")), start) /\
  traffic_count (self (count_line (Sample.rec "70000" "6") start).2)
    !! "70000,tcp" = Some 1%Z /\
  tag_count (self (count_line (Sample.rec "70000" "6") start).2)
    !! "Untagged" = Some 1%Z.
Proof.
  split; [reflexivity|]. split; [reflexivity|]. split; [lia|].
  split; [vm_compute; reflexivity|].
  split; vm_compute; reflexivity.
Qed.

(** The one bound on the port is [int]'s own: a field 6 of 4301 digits is
    no integer for it, and the line is rejected. *)
Example long_port_rejected :
  _parse_line (Sample.rec (String.concat "" (repeat "9" 4301)) "6") start
  = (Ok None, start).
Proof.
  rewrite _parse_line_run.
  replace (parse_fields _) with (@None (Z * string)); [reflexivity|].
  symmetry. apply parse_fields_None. right; right.
  exists (String.concat "" (repeat "9" 4301)). split.
  - vm_compute. reflexivity.
  - destruct (PyStr.int _) as [n|] eqn:H; [|reflexivity].
    apply int_digit_limit in H. vm_compute in H. contradiction H. reflexivity.
Qed.

(** ** The lookup loader *)

Lemma store_mapping_run line st :
  PyStr.strip line <> "" ->
  store_mapping line st =
  match classify line with
  | Mapping key tag =>
      (Ok tt, mkState (with_lookup (self st) (<[key := tag]> (lookup_dict (self st))))
                      (console st) (report st))
  | _ => (Raise (ValueError
                   match PyStr.split_on "," (PyStr.strip line) with
                   | [_; _; _] => "invalid literal for int() with base 10"
                   | _ => "wrong number of values to unpack"
                   end), st)
  end.
Proof.
  intros Hs. unfold store_mapping, classify.
  destruct (String.eqb_spec (PyStr.strip line) "") as [|_]; [contradiction|].
  destruct (PyStr.split_on "," (PyStr.strip line)) as [|port [|proto [|tag [|]]]];
    try reflexivity.
  unfold int_of. run. destruct (PyStr.int port); reflexivity.
Qed.

(** One turn of the loop on a decoded line. *)
Lemma load_loop_step line f num st :
  load_loop (Line line :: f) num st =
  if (mapping_limit <=? num)%Z then (Ok tt, printed st limit_warning)
  else
    match classify line with
    | Blank => load_loop f num st
    | Malformed =>
        load_loop f num
          (printed st ("Skipping bad line: " +:+ PyStr.strip line))
    | Mapping key tag =>
        load_loop f (num + 1)
          (mkState (with_lookup (self st) (<[key := tag]> (lookup_dict (self st))))
                   (console st) (report st))
    end.
Proof.
  simpl. destruct (mapping_limit <=? num)%Z; [reflexivity|].
  destruct (String.eqb_spec (PyStr.strip line) "") as [Hs|Hs].
  { unfold classify. rewrite Hs. reflexivity. }
  unfold bind at 1. unfold try_except. unfold bind at 1.
  rewrite (store_mapping_run _ _ Hs).
  assert (Hk : classify line <> Blank).
  { unfold classify. destruct (String.eqb_spec (PyStr.strip line) "");
      [contradiction|].
    destruct (PyStr.split_on "," (PyStr.strip line)) as [|? [|? [|? [|]]]];
      try discriminate.
    destruct (PyStr.int _); discriminate. }
  destruct (classify line); [contradiction| |]; reflexivity.
Qed.

(** The loader touches neither the counters nor the report, and the only
    exception that leaves the loop is the decoder's. *)
Lemma load_loop_frame f num st :
  let out := load_loop f num st in
  tag_count (self out.2) = tag_count (self st) /\
  traffic_count (self out.2) = traffic_count (self st) /\
  report out.2 = report st /\
  out.1 = if decodes f then Ok tt else out.1.
Proof.
  revert num st. induction f as [|[line|] f IH]; intros num st.
  - simpl. auto.
  - cbv zeta. rewrite load_loop_step.
    destruct (mapping_limit <=? num)%Z.
    { simpl. destruct (decodes f); auto. }
    simpl decodes.
    destruct (classify line) as [| |key tag].
    + apply IH.
    + destruct (IH num (printed st ("Skipping bad line: " +:+ PyStr.strip line)))
        as (? & ? & ? & ?). auto.
    + destruct (IH (num + 1)%Z
        (mkState (with_lookup (self st) (<[key := tag]> (lookup_dict (self st))))
                 (console st) (report st))) as (? & ? & ? & ?). auto.
  - simpl. auto.
Qed.

Lemma count_mappings_cons r f :
  count_mappings (r :: f)
  = ((if is_mapping r then 1 else 0) + count_mappings f)%Z.
Proof.
  unfold count_mappings. rewrite filter_cons.
  destruct (is_mapping r) eqn:Hr.
  - rewrite decide_True by reflexivity. simpl length. lia.
  - rewrite decide_False by discriminate. lia.
Qed.

Lemma count_mappings_nonneg f : (0 <= count_mappings f)%Z.
Proof. unfold count_mappings. lia. Qed.

(** The table grows by at most what the limit still allows. *)
Lemma load_loop_size f num st :
  (Z.of_nat (size (lookup_dict (self (load_loop f num st).2)))
   <= Z.of_nat (size (lookup_dict (self st))) + Z.max 0 (mapping_limit - num))%Z.
Proof.
  revert num st. induction f as [|[line|] f IH]; intros num st.
  - simpl. lia.
  - rewrite load_loop_step.
    destruct (Z.leb_spec mapping_limit num) as [Hge|Hlt]; [simpl; lia|].
    destruct (classify line) as [| |key tag].
    + apply IH.
    + etransitivity; [apply IH|]. simpl. lia.
    + etransitivity; [apply IH|]. simpl.
      pose proof (map_size_insert key tag (lookup_dict (self st))) as Hs.
      destruct (lookup_dict (self st) !! key); simpl in Hs; lia.
  - simpl. lia.
Qed.

(** Reads that follow the line at which the limit is noticed play no part:
    the table is the one built from the reads before that line. *)
Lemma load_loop_cut pre line post num st :
  decodes pre = true ->
  (num + count_mappings pre = mapping_limit)%Z ->
  let full := load_loop (pre ++ Line line :: post) num st in
  let cut := load_loop pre num st in
  full.1 = Ok tt /\ self full.2 = self cut.2 /\ report full.2 = report st /\
  last (console full.2) = Some limit_warning.
Proof.
  revert num st. induction pre as [|[x|] pre IH]; intros num st Hdec Hcount.
  - simpl app. cbv zeta. rewrite load_loop_step.
    unfold count_mappings in Hcount. simpl in Hcount.
    destruct (Z.leb_spec mapping_limit num); [|lia].
    simpl. rewrite last_snoc. auto.
  - cbv zeta. rewrite <- app_comm_cons, !load_loop_step.
    rewrite count_mappings_cons in Hcount. simpl in Hdec.
    pose proof (count_mappings_nonneg pre).
    destruct (Z.leb_spec mapping_limit num) as [Hge|Hlt].
    { simpl. rewrite last_snoc. auto. }
    unfold is_mapping in Hcount.
    destruct (classify x) as [| |key tag].
    + apply IH; [assumption|lia].
    + destruct (IH num (printed st ("Skipping bad line: " +:+ PyStr.strip x)))
        as (? & ? & ? & ?); [assumption|lia|]. auto.
    + destruct (IH (num + 1)%Z
        (mkState (with_lookup (self st) (<[key := tag]> (lookup_dict (self st))))
                 (console st) (report st)))
        as (? & ? & ? & ?); [assumption|lia|]. auto.
  - discriminate.
Qed.

(** A run of identical mapping lines that stays within the limit: all are
    stored, nothing is printed. *)
Lemma load_loop_replicate line key tag n num st :
  classify line = Mapping key tag ->
  (num + Z.of_nat n <= mapping_limit)%Z ->
  load_loop (replicate n (Line line)) num st =
  (Ok tt,
   match n with
   | O => st
   | S _ => mkState (with_lookup (self st) (<[key := tag]> (lookup_dict (self st))))
                    (console st) (report st)
   end).
Proof.
  intros Hk. revert num st. induction n as [|n IH]; intros num st Hle.
  - reflexivity.
  - simpl replicate. rewrite load_loop_step, Hk.
    destruct (Z.leb_spec mapping_limit num); [lia|].
    rewrite IH by lia. destruct n; [reflexivity|].
    simpl. unfold with_lookup. simpl. rewrite insert_insert_eq. reflexivity.
Qed.

Lemma count_mappings_replicate r n :
  is_mapping r = true -> count_mappings (replicate n r) = Z.of_nat n.
Proof.
  intros Hr. induction n as [|n IH]; [reflexivity|].
  simpl replicate. rewrite count_mappings_cons, Hr, IH. lia.
Qed.

(** No warning unless a line is read after the limit has been reached. *)
Lemma load_loop_quiet f num st :
  (num + count_mappings (removelast f) < mapping_limit)%Z ->
  limit_warning ∉ console st ->
  limit_warning ∉ console (load_loop f num st).2.
Proof.
  revert num st. induction f as [|[x|] f IH]; intros num st Hnum Hquiet;
    [assumption| |assumption].
  rewrite load_loop_step.
  pose proof (count_mappings_nonneg (removelast (Line x :: f))) as Hpos.
  destruct (Z.leb_spec mapping_limit num); [lia|].
  destruct f as [|r f].
  { destruct (classify x); simpl; try assumption.
    rewrite elem_of_app, list_elem_of_singleton.
    intros [?|?]; [contradiction|discriminate]. }
  change (removelast (Line x :: r :: f)) with (Line x :: removelast (r :: f))
    in Hnum.
  rewrite count_mappings_cons in Hnum. unfold is_mapping in Hnum.
  destruct (classify x) as [| |key tag]; apply IH; try assumption; try lia.
  simpl. rewrite elem_of_app, list_elem_of_singleton.
  intros [?|?]; [contradiction|discriminate].
Qed.

(** C5, as the code behaves. The table never holds more than 10,000
    mappings. When a further line is read after the 10,000th accepted
    mapping, loading stops there with a warning and without an error, and
    the instance is the one built from the source cut before that line: the
    10,001st mapping line and everything after it are ignored. When fewer
    than 10,000 mappings precede the last read of the source, no warning is
    printed. *)
Theorem loader_limit (lookups : file) (st : pstate) :
  mapping_limit = 10000%Z /\
  (Z.of_nat (size (lookup_dict (self (__init__ lookups st).2)))
   <= mapping_limit)%Z /\
  (forall header pre line post,
    reads lookups = Line header :: pre ++ Line line :: post ->
    decodes pre = true ->
    count_mappings pre = mapping_limit ->
    (__init__ lookups st).1 = Ok tt /\
    self (__init__ lookups st).2
    = self (__init__ (mkFile (getsize lookups) (Line header :: pre)) st).2 /\
    last (console (__init__ lookups st).2) = Some limit_warning) /\
  (forall header f,
     reads lookups = Line header :: f ->
     (count_mappings (removelast f) < mapping_limit)%Z ->
     limit_warning ∉ console st ->
     limit_warning ∉ console (__init__ lookups st).2).
Proof.
  split; [reflexivity|]. split; [|split].
  - unfold __init__, _load_lookups. run.
    destruct (reads lookups) as [|[header|] f]; simpl.
    1,3: (rewrite map_size_empty; unfold mapping_limit; lia).
    pose proof (load_loop_size f 0
                  (mkState (mkFlowParser ∅ ∅ ∅) (console st) (report st))) as Hs.
    simpl in Hs. rewrite map_size_empty in Hs.
    unfold mapping_limit in *.
    destruct (load_loop f 0 _) as [[[]|e] st']; simpl in *;
      [lia|destruct (is_UnicodeDecodeError e); simpl; lia].
  - intros header pre line post Hreads Hdec Hcount.
    pose proof (load_loop_cut pre line post 0
                  (mkState (mkFlowParser ∅ ∅ ∅) (console st) (report st))
                  Hdec ltac:(lia)) as (Hok & Hself & _ & Hlast).
    pose proof (load_loop_frame pre 0
                  (mkState (mkFlowParser ∅ ∅ ∅) (console st) (report st)))
      as (_ & _ & _ & Hcut).
    rewrite Hdec in Hcut.
    unfold __init__, _load_lookups. rewrite Hreads. run.
    destruct (load_loop (pre ++ Line line :: post) 0 _) as [r1 st1].
    destruct (load_loop pre 0 _) as [r2 st2].
    simpl in *. subst r1 r2. auto.
  - intros header f Hreads Hcount Hquiet.
    pose proof (load_loop_quiet f 0
                  (mkState (mkFlowParser ∅ ∅ ∅) (console st) (report st))
                  ltac:(lia) Hquiet) as Hq.
    unfold __init__, _load_lookups. rewrite Hreads. run.
    destruct (load_loop f 0 _) as [[[]|e] st']; simpl in *;
      [assumption|destruct (is_UnicodeDecodeError e); assumption].
Qed.

Lemma loader_limit_witness :
  self (__init__ (mkFile 110048 (reads Full.exact ++ Full.extra)) start).2
  = self (__init__ (mkFile 110048 (reads Full.exact)) start).2.
Proof.
  pose proof (loader_limit (mkFile 110048 (reads Full.exact ++ Full.extra))
                start) as (_ & _ & Hcut & _).
  destruct (Hcut ("dstport,protocol,tag" +:+ nl)
              (replicate (Z.to_nat 10000) (Line ("80,tcp,web" +:+ nl)))
              ("443,tcp,secure" +:+ nl) [Line ("25,tcp,mail" +:+ nl)] eq_refl)
    as (_ & Hself & _).
  - vm_compute. reflexivity.
  - vm_compute. reflexivity.
  - exact Hself.
Defined.

Lemma __init___replicate header line key tag n sz st :
  classify line = Mapping key tag ->
  (Z.of_nat n <= mapping_limit)%Z ->
  __init__ (mkFile sz (Line header :: replicate n (Line line))) st =
  (Ok tt,
   mkState (mkFlowParser match n with O => ∅ | S _ => {[ key := tag ]} end ∅ ∅)
           (console st) (report st)).
Proof.
  intros Hk Hn. unfold __init__, _load_lookups.
  unfold bind, try_except, set_self, next_line, reads, ret.
  rewrite (load_loop_replicate line key tag) by (assumption || lia).
  destruct n; reflexivity.
Qed.

(** C5 as stated fails: a source that ends with its 10,000th accepted
    mapping is loaded to the end and no warning is printed. *)
Lemma limit_reached_without_warning :
  count_mappings (tail (reads Full.exact)) = 10000%Z /\
  (__init__ Full.exact start).1 = Ok tt /\
  lookup_dict (self (__init__ Full.exact start).2)
  = {[ (80%Z, "tcp") := "web" ]} /\
  console (__init__ Full.exact start).2 = [].
Proof.
  unfold Full.exact. split.
  { change (count_mappings
              (replicate (Z.to_nat 10000) (Line ("80,tcp,web" +:+ nl)))
            = 10000%Z).
    rewrite count_mappings_replicate by reflexivity. reflexivity. }
  rewrite (__init___replicate _ _ (80%Z, "tcp") "web") by (reflexivity || lia).
  change (Z.to_nat 10000) with (S (Z.to_nat 9999)). cbv iota.
  repeat split.
Qed.






(** ** Decode failures in the log *)

Lemma process_logs_run log st :
  process_logs log st =
  if (max_log_size <? getsize log)%Z then
    (Raise (ValueError "Log file too large (>10MB)"), st)
  else
    (if decodes (reads log) then Ok tt
     else Raise (ValueError "Log file must be ASCII text"),
     mkState (foldl counted (self st) (lines_read (reads log)))
             (console st) (report st)).
Proof.
  unfold process_logs. destruct (max_log_size <? getsize log)%Z; [reflexivity|].
  unfold try_except. rewrite log_loop_run.
  destruct (decodes (reads log)); reflexivity.
Qed.

Lemma decodes_false_iff f : decodes f = false <-> BadByte ∈ f.
Proof.
  induction f as [|[line|] f IH]; simpl.
  - split; [discriminate|]. intros H. inversion H.
  - rewrite IH. split.
    + intros H. right. assumption.
    + intros H. inversion H; subst; assumption.
  - split; [intros _; left|reflexivity].
Qed.

Lemma lines_read_decodes lines :
  lines_read (Line <$> lines) = lines /\ decodes (Line <$> lines) = true.
Proof.
  induction lines as [|l lines [IH1 IH2]]; [split; reflexivity|].
  rewrite fmap_cons. cbn [lines_read decodes]. rewrite IH1. auto.
Qed.

(** The constructor leaves the report alone, whatever its outcome. *)
Lemma __init___report lookups st : report (__init__ lookups st).2 = report st.
Proof.
  unfold __init__, _load_lookups. run.
  destruct (reads lookups) as [|[header|] f]; simpl; try reflexivity.
  pose proof (load_loop_frame f 0
                (mkState (mkFlowParser ∅ ∅ ∅) (console st) (report st)))
    as (_ & _ & Hrep & _).
  destruct (load_loop f 0 _) as [[[]|e] st']; simpl in *;
    [assumption|destruct (is_UnicodeDecodeError e); assumption].
Qed.

Lemma main_run prog log_file lookup_file output_file fs st :
  main [prog; log_file; lookup_file; output_file] fs st =
  match
    (if (max_log_size <? getsize (fs log_file))%Z then
       raise (ValueError "Flow log file too large")
     else if (max_lookup_size <? getsize (fs lookup_file))%Z then
       raise (ValueError "Lookup file too large")
     else
       __init__ (fs lookup_file) >> process_logs (fs log_file) >> write_report)
      st
  with
  | (Ok _, st') => (0%Z, st')
  | (Raise e, st') => (1%Z, printed st' ("Error: " +:+ exn_str e))
  end.
Proof. reflexivity. Qed.

(** The state in which [main] leaves the process when the log holds a
    byte the decoder refuses: status 1, report as it was. *)
Lemma main_bad_log prog log_file lookup_file output_file fs st :
  BadByte ∈ reads (fs log_file) ->
  exists st',
    main [prog; log_file; lookup_file; output_file] fs st = (1%Z, st') /\
    report st' = report st.
Proof.
  intros Hbad%decodes_false_iff. rewrite main_run.
  destruct (max_log_size <? getsize (fs log_file))%Z eqn:Hsz;
    [eexists; split; reflexivity|].
  destruct (max_lookup_size <? getsize (fs lookup_file))%Z;
    [eexists; split; reflexivity|].
  unfold bind at 1.
  pose proof (__init___report (fs lookup_file) st) as Hrep.
  destruct (__init__ (fs lookup_file) st) as [[[]|e] st1]; simpl in Hrep.
  2:{ eexists; split; [reflexivity|]. simpl. assumption. }
  unfold bind at 1. rewrite process_logs_run, Hsz, Hbad.
  eexists; split; [reflexivity|]. simpl. assumption.
Qed.

(** C4, as the code behaves: when the decoder refuses a byte of the log,
    the run ends with a fatal error (exit status 1) and no report is
    written; the counters are not rolled back but stay as a complete pass
    over the lines read before the failure leaves them. *)
Theorem decode_failure_aborts (prog log_file lookup_file output_file : string)
    (fs : string -> file) (st : pstate) :
  BadByte ∈ reads (fs log_file) ->
  (main [prog; log_file; lookup_file; output_file] fs st).1 = 1%Z /\
  report (main [prog; log_file; lookup_file; output_file] fs st).2 = report st /\
  forall st0,
    (getsize (fs log_file) <= max_log_size)%Z ->
    process_logs (fs log_file) st0 =
    (Raise (ValueError "Log file must be ASCII text"),
     (log_loop (Line <$> lines_read (reads (fs log_file))) st0).2).
Proof.
  intros Hbad.
  destruct (main_bad_log prog log_file lookup_file output_file fs st Hbad)
    as (st' & -> & Hrep).
  split; [reflexivity|]. split; [assumption|].
  intros st0 Hsize. rewrite process_logs_run.
  destruct (Z.ltb_spec max_log_size (getsize (fs log_file))); [lia|].
  apply decodes_false_iff in Hbad. rewrite Hbad.
  rewrite log_loop_run.
  destruct (lines_read_decodes (lines_read (reads (fs log_file)))) as [-> _].
  reflexivity.
Qed.


Lemma decode_failure_aborts_witness :
  (main Sample.argv BadLog.fs start).1 = 1%Z /\
  report (main Sample.argv BadLog.fs start).2 = None.
Proof.
  pose proof (decode_failure_aborts "flow_parser.py" "log.txt" "lookup.csv"
                "out.txt" BadLog.fs start) as H.
  destruct H as (Hstatus & Hrep & _).
  - apply decodes_false_iff. vm_compute. reflexivity.
  - split; [exact Hstatus | exact Hrep].
Defined.

(** C4 as stated fails: the lines read before the bad byte have been
    counted and stay counted after the failure. *)
Lemma partial_counts_survive_failure :
  BadByte ∈ reads BadLog.log /\
  process_logs BadLog.log start
  = (Raise (ValueError "Log file must be ASCII text"),
     (process_logs BadLog.log start).2) /\
  traffic_count (self start) !! "80,tcp" = None /\
  traffic_count (self (process_logs BadLog.log start).2) !! "80,tcp"
  = Some 160%Z /\
  tag_count (self start) !! "Untagged" = None /\
  tag_count (self (process_logs BadLog.log start).2) !! "Untagged"
  = Some 160%Z /\
  tag_count (self (main Sample.argv BadLog.fs start).2) !! "web" = Some 160%Z.
Proof.
  split; [apply decodes_false_iff; vm_compute; reflexivity|].
  do 5 (split; [vm_compute; reflexivity|]). vm_compute. reflexivity.
Qed.

(** A bump never lowers or removes an entry. *)
Lemma bump_grows k k' d v :
  d !! k' = Some v -> exists v', bump k d !! k' = Some v' /\ (v <= v')%Z.
Proof.
  intros Hk'. unfold bump, dict_get.
  destruct (decide (k = k')) as [->|Hne].
  - rewrite lookup_insert_eq, Hk'. simpl. eexists. split; [reflexivity|lia].
  - rewrite lookup_insert_ne by assumption. eexists. split; [eassumption|lia].
Qed.

Lemma foldl_counted_grows lines p :
  let q := foldl counted p lines in
  (forall tag n, tag_count p !! tag = Some n ->
     exists n', tag_count q !! tag = Some n' /\ (n <= n')%Z) /\
  (forall key n, traffic_count p !! key = Some n ->
     exists n', traffic_count q !! key = Some n' /\ (n <= n')%Z).
Proof.
  revert p. induction lines as [|l lines IH]; intros p.
  - simpl. split; intros k n Hk; exists n; split; (assumption || lia).
  - cbv zeta. simpl foldl. destruct (IH (counted p l)) as [H1 H2].
    assert (Hstep :
      (forall tag n, tag_count p !! tag = Some n ->
         exists n', tag_count (counted p l) !! tag = Some n' /\ (n <= n')%Z) /\
      (forall key n, traffic_count p !! key = Some n ->
         exists n', traffic_count (counted p l) !! key = Some n' /\ (n <= n')%Z)).
    { unfold counted. destruct (parsed l) as [[port proto]|];
        cbn [tag_count traffic_count].
      - split; intros k n Hk; apply bump_grows; assumption.
      - split; intros k n Hk; exists n; split; (assumption || lia). }
    destruct Hstep as [S1 S2]. split; intros k n Hk.
    + destruct (S1 k n Hk) as (m & Hm & Hle).
      destruct (H1 k m Hm) as (m' & Hm' & Hle'). exists m'. split; [assumption|lia].
    + destruct (S2 k n Hk) as (m & Hm & Hle).
      destruct (H2 k m Hm) as (m' & Hm' & Hle'). exists m'. split; [assumption|lia].
Qed.

(** ** Replaying a run *)

Lemma counted_lookup p line : lookup_dict (counted p line) = lookup_dict p.
Proof. unfold counted. destruct (parsed line) as [[? ?]|]; reflexivity. Qed.

Lemma foldl_counted_lookup lines p :
  lookup_dict (foldl counted p lines) = lookup_dict p.
Proof.
  revert p. induction lines as [|l lines IH]; intros p; [reflexivity|].
  simpl. rewrite IH. apply counted_lookup.
Qed.

(** The counters after a pass depend on the instance only through its
    table and its counters. *)
Lemma foldl_counted_ext lines p q :
  lookup_dict p = lookup_dict q -> tag_count p = tag_count q ->
  traffic_count p = traffic_count q ->
  foldl counted p lines = foldl counted q lines.
Proof.
  intros. destruct p, q; simpl in *; subst. reflexivity.
Qed.

(** ** Totals of the counters *)

Lemma count_sum_insert_fresh k v (d : gmap string Z) :
  d !! k = None -> count_sum (<[k := v]> d) = (v + count_sum d)%Z.
Proof.
  intros Hk. unfold count_sum.
  rewrite map_fold_insert_L; [reflexivity| |assumption].
  intros. lia.
Qed.

Lemma count_sum_bump k d : count_sum (bump k d) = (count_sum d + 1)%Z.
Proof.
  unfold bump, dict_get. destruct (d !! k) as [v|] eqn:Hk; simpl.
  - rewrite <- (insert_delete_eq d k).
    rewrite <- (insert_id d k v Hk) at 2.
    rewrite <- (insert_delete_eq d k v).
    rewrite !count_sum_insert_fresh by apply lookup_delete_eq. lia.
  - rewrite count_sum_insert_fresh by assumption. lia.
Qed.

Lemma positive_counts_bump k d :
  positive_counts d -> positive_counts (bump k d).
Proof.
  intros Hd k' v. unfold bump, dict_get.
  destruct (decide (k = k')) as [<-|Hne].
  - rewrite lookup_insert_eq. intros [= <-].
    destruct (d !! k) as [v0|] eqn:Hk; simpl; [apply Hd in Hk|]; lia.
  - rewrite lookup_insert_ne by assumption. apply Hd.
Qed.

Lemma accepted_cons line lines :
  accepted (line :: lines)
  = (match parsed line with Some _ => 1 | None => 0 end + accepted lines)%Z.
Proof.
  unfold accepted. rewrite filter_cons.
  destruct (parsed line) as [r|].
  - rewrite decide_True by eauto. simpl length. lia.
  - rewrite decide_False by (intros [? ?]; discriminate). lia.
Qed.

(** The invariant of the loop: both totals move together, one step per
    accepted line, and no stored count is below one. *)
Lemma foldl_counted_totals lines p :
  positive_counts (tag_count p) -> positive_counts (traffic_count p) ->
  let q := foldl counted p lines in
  count_sum (tag_count q) = (count_sum (tag_count p) + accepted lines)%Z /\
  count_sum (traffic_count q) = (count_sum (traffic_count p) + accepted lines)%Z /\
  positive_counts (tag_count q) /\ positive_counts (traffic_count q).
Proof.
  revert p. induction lines as [|l lines IH]; intros p Htag Htraffic.
  - simpl. unfold accepted. simpl. split; [lia|]. split; [lia|]. auto.
  - cbv zeta. simpl foldl. rewrite accepted_cons.
    destruct (IH (counted p l)) as (H1 & H2 & H3 & H4).
    + unfold counted. destruct (parsed l) as [[? ?]|]; simpl;
        [apply positive_counts_bump|]; assumption.
    + unfold counted. destruct (parsed l) as [[? ?]|]; simpl;
        [apply positive_counts_bump|]; assumption.
    + rewrite H1, H2. repeat split; try assumption; unfold counted;
        destruct (parsed l) as [[port proto]|]; cbn [tag_count traffic_count];
        rewrite ?count_sum_bump; lia.
Qed.

(** C9. After a pass over a log that starts from empty counters, the
    counts in TagCounts and the counts in TrafficCounts both add up to the
    number of lines the parser accepted, and every stored count is at
    least 1. *)
Theorem totals_match_accepted (log : file) (table : gmap (Z * string) string)
    (out : list string) (rep : option string) :
  (getsize log <= max_log_size)%Z ->
  let after := (process_logs log (mkState (mkFlowParser table ∅ ∅) out rep)).2 in
  count_sum (tag_count (self after)) = accepted (lines_read (reads log)) /\
  count_sum (traffic_count (self after)) = accepted (lines_read (reads log)) /\
  (forall tag n, tag_count (self after) !! tag = Some n -> (1 <= n)%Z) /\
  (forall key n, traffic_count (self after) !! key = Some n -> (1 <= n)%Z).
Proof.
  intros Hsize. cbv zeta. rewrite process_logs_run.
  destruct (Z.ltb_spec max_log_size (getsize log)); [lia|]. simpl.
  destruct (foldl_counted_totals (lines_read (reads log))
              (mkFlowParser table ∅ ∅)) as (H1 & H2 & H3 & H4).
  - intros k v. simpl. rewrite lookup_empty. discriminate.
  - intros k v. simpl. rewrite lookup_empty. discriminate.
  - simpl in H1, H2. unfold count_sum in H1 at 2. unfold count_sum in H2 at 2.
    rewrite map_fold_empty in H1, H2.
    split; [rewrite H1; lia|]. split; [rewrite H2; lia|]. auto.
Qed.

Lemma totals_match_accepted_witness :
  count_sum (tag_count (self (process_logs Sample.log start).2)) = 5%Z /\
  count_sum (traffic_count (self (process_logs Sample.log start).2)) = 5%Z.
Proof.
  destruct (totals_match_accepted Sample.log ∅ [] None) as (H1 & H2 & _).
  - vm_compute. discriminate.
  - split; [exact H1 | exact H2].
Defined.

(** ** A lookup source without a header *)

(** C10. Building the table from a source that has no line at all fails:
    [next] finds nothing to skip, the constructor raises instead of
    returning an empty table, and [main] ends with status 1 without writing
    a report and without looking at a single line of the log: any log of
    the same size leads to the same final state. *)
Theorem empty_lookup_aborts (prog log_file lookup_file output_file : string)
    (fs : string -> file) (st : pstate) :
  reads (fs lookup_file) = [] ->
  __init__ (fs lookup_file) st
  = (Raise StopIteration,
     mkState (mkFlowParser ∅ ∅ ∅) (console st) (report st)) /\
  (main [prog; log_file; lookup_file; output_file] fs st).1 = 1%Z /\
  report (main [prog; log_file; lookup_file; output_file] fs st).2 = report st /\
  forall fs' : string -> file,
    (forall path, getsize (fs' path) = getsize (fs path)) ->
    reads (fs' lookup_file) = [] ->
    main [prog; log_file; lookup_file; output_file] fs' st
    = main [prog; log_file; lookup_file; output_file] fs st.
Proof.
  intros Hempty.
  assert (Hinit : forall g : string -> file, reads (g lookup_file) = [] ->
            __init__ (g lookup_file) st
            = (Raise StopIteration,
               mkState (mkFlowParser ∅ ∅ ∅) (console st) (report st))).
  { intros g Hg. unfold __init__, _load_lookups. rewrite Hg. reflexivity. }
  split; [apply Hinit; assumption|].
  assert (Hmain : forall g : string -> file, reads (g lookup_file) = [] ->
            main [prog; log_file; lookup_file; output_file] g st =
            if (max_log_size <? getsize (g log_file))%Z then
              (1%Z, printed st "Error: Flow log file too large")
            else if (max_lookup_size <? getsize (g lookup_file))%Z then
              (1%Z, printed st "Error: Lookup file too large")
            else
              (1%Z, printed (mkState (mkFlowParser ∅ ∅ ∅) (console st) (report st))
                            "Error: ")).
  { intros g Hg. rewrite main_run.
    destruct (max_log_size <? getsize (g log_file))%Z; [reflexivity|].
    destruct (max_lookup_size <? getsize (g lookup_file))%Z; [reflexivity|].
    unfold bind at 1. rewrite (Hinit g Hg). reflexivity. }
  rewrite (Hmain fs Hempty).
  split; [|split].
  - repeat destruct (_ <? _)%Z; reflexivity.
  - repeat destruct (_ <? _)%Z; reflexivity.
  - intros fs' Hsize Hempty'. rewrite (Hmain fs' Hempty'), !Hsize. reflexivity.
Qed.


Lemma empty_lookup_aborts_witness :
  main Sample.argv NoHeader.fs start
  = (1%Z, mkState (mkFlowParser ∅ ∅ ∅) ["Error: "] None) /\
  __init__ (mkFile 0 []) start = (Raise StopIteration, start).
Proof.
  pose proof (empty_lookup_aborts "flow_parser.py" "log.txt" "lookup.csv"
                "out.txt" NoHeader.fs start eq_refl) as (Hinit & _).
  split; [reflexivity | exact Hinit].
Defined.

(** ** The report *)

Section Text.

Lemma append_assoc (a b c : string) : (a +:+ b) +:+ c = a +:+ (b +:+ c).
Proof.
  induction a as [|x a IH]; [reflexivity|].
  change (String x ((a +:+ b) +:+ c) = String x (a +:+ (b +:+ c))).
  rewrite IH. reflexivity.
Qed.

Lemma append_empty_r (a : string) : a +:+ "" = a.
Proof.
  induction a as [|x a IH]; [reflexivity|].
  change (String x (a +:+ "") = String x a). rewrite IH. reflexivity.
Qed.

Lemma isascii_app (a b : string) :
  PyStr.isascii (a +:+ b) = PyStr.isascii a && PyStr.isascii b.
Proof.
  induction a as [|x a IH]; [reflexivity|].
  change (PyStr.is_ascii_char x && PyStr.isascii (a +:+ b)
          = PyStr.is_ascii_char x && PyStr.isascii a && PyStr.isascii b).
  rewrite IH. apply andb_assoc.
Qed.

Lemma isascii_uint d : PyStr.isascii (NilEmpty.string_of_uint d) = true.
Proof. induction d; simpl; try assumption; reflexivity. Qed.

Lemma isascii_str_of_int n : PyStr.isascii (PyStr.str_of_int n) = true.
Proof.
  unfold PyStr.str_of_int, NilZero.string_of_int, NilZero.string_of_uint.
  destruct (Z.to_int n) as [d|d]; destruct d; simpl;
    try reflexivity; apply isascii_uint.
Qed.

Lemma isascii_row item :
  PyStr.isascii item.1 = true -> PyStr.isascii (row item) = true.
Proof.
  intros H. unfold row. rewrite !isascii_app, H, isascii_str_of_int.
  reflexivity.
Qed.

End Text.

Lemma fwrite_run s st :
  PyStr.isascii s = true ->
  fwrite s st =
  (Ok tt, mkState (self st) (console st)
                  (Some (default EmptyString (report st) +:+ s))).
Proof. intros H. unfold fwrite. rewrite H. reflexivity. Qed.

Lemma write_rows_run items st :
  Forall (fun item => PyStr.isascii item.1 = true) items ->
  write_rows items st =
  (Ok tt, mkState (self st) (console st)
            (match items with
             | [] => report st
             | _ => Some (default EmptyString (report st) +:+ rows_text items)
             end)).
Proof.
  intros Hall. revert st. induction Hall as [|item items Hitem _ IH]; intros st.
  - simpl. run. rewrite state_eta. reflexivity.
  - simpl write_rows. unfold bind.
    rewrite (fwrite_run _ _ (isascii_row _ Hitem)), IH. simpl.
    destruct items; simpl.
    + rewrite append_empty_r. reflexivity.
    + rewrite append_assoc. reflexivity.
Qed.

Section Order.

Lemma le_ne_ltb (a b : string) : String.le a b -> a <> b -> String.ltb a b = true.
Proof.
  unfold String.le, String.leb, String.ltb.
  destruct (String.compare a b) eqn:Hc; simpl; try tauto.
  apply String.compare_eq_iff in Hc. tauto.
Qed.

#[local] Instance item_le_trans : Transitive item_le.
Proof.
  intros a b c. unfold item_le.
  destruct (decide (a.1 = b.1)) as [Hab|Hab],
           (decide (b.1 = c.1)) as [Hbc|Hbc],
           (decide (a.1 = c.1)) as [Hac|Hac]; intros H1 H2;
    try congruence; try lia.
  - exfalso. apply Hab. rewrite <- Hac in H2.
    apply (anti_symm String.le); assumption.
  - etransitivity; eassumption.
Qed.

#[local] Instance item_le_total : Total item_le.
Proof.
  intros a b. unfold item_le.
  destruct (decide (a.1 = b.1)) as [Hab|Hab].
  - rewrite decide_True by congruence. lia.
  - rewrite decide_False by congruence. apply (total String.le).
Qed.

Lemma item_le_key_lt a b : item_le a b -> a.1 <> b.1 -> key_lt a b.
Proof.
  unfold item_le, key_lt. intros H Hne.
  rewrite decide_False in H by assumption. apply le_ne_ltb; assumption.
Qed.

Lemma sorted_distinct_keys (l : list (string * Z)) :
  StronglySorted item_le l -> NoDup l.*1 -> StronglySorted key_lt l.
Proof.
  induction 1 as [|a l Hl IH Ha]; intros Hnd; [constructor|].
  rewrite fmap_cons in Hnd. apply NoDup_cons in Hnd as [Hnotin Hnd].
  constructor; [apply IH; assumption|].
  rewrite Forall_forall in Ha |- *. intros b Hb.
  apply item_le_key_lt; [apply Ha; assumption|].
  intros Heq. apply Hnotin. rewrite Heq.
  apply list_elem_of_fmap. exists b. split; [reflexivity|assumption].
Qed.

(** [sorted(d.items())] lists every entry once, keys strictly ascending. *)
Lemma sorted_items_spec (d : gmap string Z) :
  sorted_items d ≡ₚ map_to_list d /\ StronglySorted key_lt (sorted_items d).
Proof.
  unfold sorted_items. split; [apply merge_sort_Permutation|].
  apply sorted_distinct_keys.
  - apply StronglySorted_merge_sort; apply _.
  - rewrite merge_sort_Permutation. apply NoDup_fst_map_to_list.
Qed.

End Order.

Lemma write_rows_open items p out text :
  Forall (fun item => PyStr.isascii item.1 = true) items ->
  write_rows items (mkState p out (Some text)) =
  (Ok tt, mkState p out (Some (text +:+ rows_text items))).
Proof.
  intros Hall. rewrite write_rows_run by assumption. simpl.
  destruct items; [rewrite append_empty_r|]; reflexivity.
Qed.

Lemma sorted_items_ascii (d : gmap string Z) :
  map_Forall (fun key _ => PyStr.isascii key = true) d ->
  Forall (fun item => PyStr.isascii item.1 = true) (sorted_items d).
Proof.
  intros Hd. destruct (sorted_items_spec d) as [Hperm _].
  rewrite Hperm. apply Forall_forall. intros [k v] Hin.
  apply elem_of_map_to_list in Hin. exact (Hd k v Hin).
Qed.

Lemma write_report_run st :
  map_Forall (fun tag _ => PyStr.isascii tag = true) (tag_count (self st)) ->
  map_Forall (fun key _ => PyStr.isascii key = true) (traffic_count (self st)) ->
  write_report st
  = (Ok tt, mkState (self st) (console st)
              (Some (layout (sorted_items (tag_count (self st)))
                            (sorted_items (traffic_count (self st)))))).
Proof.
  intros Htag Htraffic.
  unfold write_report, try_except.
  unfold bind at 1. unfold fopen_w.
  unfold bind at 1. rewrite fwrite_run by reflexivity.
  unfold bind at 1. rewrite fwrite_run by reflexivity.
  unfold bind at 1. unfold bind at 1. unfold get_self.
  cbn [self console report default].
  rewrite write_rows_open by (apply sorted_items_ascii; assumption).
  unfold bind at 1. rewrite fwrite_run by reflexivity.
  unfold bind at 1. rewrite fwrite_run by reflexivity.
  unfold bind at 1. cbn [self console report default].
  rewrite write_rows_open by (apply sorted_items_ascii; assumption).
  unfold layout, id. rewrite !append_assoc. reflexivity.
Qed.

(** C7. With ASCII keys in both dictionaries the report is written without
    error and consists of the line [Tag Counts:], the line [Tag,Count], one
    [<tag>,<count>] line per entry of TagCounts with the tags in strictly
    ascending character order, an empty line, the lines
    [Port/Protocol Combination Counts:] and [Port,Protocol,Count], and one
    [<port>,<protocol>,<count>] line per entry of TrafficCounts with the
    keys in strictly ascending character order, so that ["10,tcp"] comes
    before ["2,tcp"]. Empty dictionaries give the headers and the empty
    line with no data rows. *)
Theorem report_layout (st : pstate) :
  map_Forall (fun tag _ => PyStr.isascii tag = true) (tag_count (self st)) ->
  map_Forall (fun key _ => PyStr.isascii key = true) (traffic_count (self st)) ->
  let tags := sorted_items (tag_count (self st)) in
  let traffic := sorted_items (traffic_count (self st)) in
  write_report st
  = (Ok tt, mkState (self st) (console st) (Some (layout tags traffic))) /\
  tags ≡ₚ map_to_list (tag_count (self st)) /\
  StronglySorted key_lt tags /\
  traffic ≡ₚ map_to_list (traffic_count (self st)) /\
  StronglySorted key_lt traffic /\
  (forall n m : Z, key_lt ("10,tcp", n) ("2,tcp", m)) /\
  (tag_count (self st) = ∅ -> traffic_count (self st) = ∅ ->
   layout tags traffic
   = "Tag Counts:" +:+ nl +:+ "Tag,Count" +:+ nl +:+ nl +:+
     "Port/Protocol Combination Counts:" +:+ nl +:+
     "Port,Protocol,Count" +:+ nl).
Proof.
  intros Htag Htraffic tags traffic.
  destruct (sorted_items_spec (tag_count (self st))) as [Hp1 Hs1].
  destruct (sorted_items_spec (traffic_count (self st))) as [Hp2 Hs2].
  split; [|split; [assumption|split; [assumption|split;
             [assumption|split; [assumption|split]]]]].
  - apply write_report_run; assumption.
  - intros n m. reflexivity.
  - intros E1 E2. subst tags traffic. unfold sorted_items.
    rewrite E1, E2, map_to_list_empty. reflexivity.
Qed.

Lemma report_layout_witness :
  write_report Sample.counters
  = (Ok tt,
     mkState (self Sample.counters) []
       (Some ("Tag Counts:" +:+ nl +:+ "Tag,Count" +:+ nl +:+
              "Untagged,2" +:+ nl +:+ "web,1" +:+ nl +:+ nl +:+
              "Port/Protocol Combination Counts:" +:+ nl +:+
              "Port,Protocol,Count" +:+ nl +:+
              "10,tcp,1" +:+ nl +:+ "2,tcp,1" +:+ nl +:+ "80,tcp,1" +:+ nl))).
Proof.
  refine (eq_trans (proj1 (report_layout Sample.counters _ _)) _).
  - repeat (apply map_Forall_insert_2; [reflexivity|]). apply map_Forall_empty.
  - repeat (apply map_Forall_insert_2; [reflexivity|]). apply map_Forall_empty.
  - vm_compute. reflexivity.
Defined.

(** ** Keys stay ASCII *)

Section Ascii.

Lemma isascii_cons c s :
  PyStr.isascii (String c s) = true <->
  PyStr.is_ascii_char c = true /\ PyStr.isascii s = true.
Proof. simpl. apply andb_true_iff. Qed.

Lemma isascii_lstrip s :
  PyStr.isascii s = true -> PyStr.isascii (PyStr.lstrip s) = true.
Proof.
  induction s as [|c s IH]; [reflexivity|].
  intros H. simpl. destruct (PyStr.isspace c); [|assumption].
  apply IH. apply isascii_cons in H. tauto.
Qed.

Lemma isascii_rstrip s :
  PyStr.isascii s = true -> PyStr.isascii (PyStr.rstrip s) = true.
Proof.
  induction s as [|c s IH]; [reflexivity|].
  intros [Hc Hs]%isascii_cons. simpl. specialize (IH Hs).
  destruct (PyStr.rstrip s) as [|c' r].
  - destruct (PyStr.isspace c); [reflexivity|].
    apply isascii_cons. auto.
  - apply isascii_cons. auto.
Qed.

Lemma isascii_strip s :
  PyStr.isascii s = true -> PyStr.isascii (PyStr.strip s) = true.
Proof. intros H. apply isascii_rstrip, isascii_lstrip, H. Qed.

Lemma isascii_push_word w ws :
  PyStr.isascii w = true ->
  Forall (fun x => PyStr.isascii x = true) ws ->
  Forall (fun x => PyStr.isascii x = true) (PyStr.push_word w ws).
Proof. intros Hw Hws. destruct w; simpl; [assumption|]. constructor; assumption. Qed.

Lemma isascii_fields_from s :
  PyStr.isascii s = true ->
  PyStr.isascii (PyStr.fields_from s).1 = true /\
  Forall (fun x => PyStr.isascii x = true) (PyStr.fields_from s).2.
Proof.
  induction s as [|c s IH]; [split; [reflexivity|constructor]|].
  intros [Hc Hs]%isascii_cons. destruct (IH Hs) as [Hw Hws].
  simpl. destruct (PyStr.fields_from s) as [w ws]. simpl in *.
  destruct (PyStr.isspace c); simpl.
  - split; [reflexivity|]. apply isascii_push_word; assumption.
  - split; [|assumption]. rewrite Hc, Hw. reflexivity.
Qed.

Lemma isascii_split_ws s :
  PyStr.isascii s = true ->
  Forall (fun x => PyStr.isascii x = true) (PyStr.split_ws s).
Proof.
  intros [Hw Hws]%isascii_fields_from. unfold PyStr.split_ws.
  destruct (PyStr.fields_from s). apply isascii_push_word; assumption.
Qed.

Lemma isascii_split_on c s :
  PyStr.isascii s = true ->
  Forall (fun x => PyStr.isascii x = true) (PyStr.split_on c s).
Proof.
  induction s as [|x s IH]; [repeat constructor|].
  intros [Hx Hs]%isascii_cons. specialize (IH Hs). simpl.
  destruct (PyStr.split_on c s) as [|w ws].
  - repeat constructor. simpl. rewrite Hx. reflexivity.
  - apply Forall_cons in IH as [Hw Hws].
    destruct (Ascii.eqb x c); repeat constructor; try assumption.
    simpl. rewrite Hx, Hw. reflexivity.
Qed.

Lemma isascii_protocol_name f7 :
  PyStr.isascii f7 = true -> PyStr.isascii (protocol_name f7) = true.
Proof.
  intros H. unfold protocol_name.
  repeat match goal with
         | |- context [String.eqb f7 ?k] => destruct (String.eqb f7 k)
         end; try reflexivity.
  rewrite isascii_app, H. reflexivity.
Qed.

Lemma isascii_parsed line port proto :
  PyStr.isascii line = true -> parsed line = Some (port, proto) ->
  PyStr.isascii proto = true.
Proof.
  intros Hline. rewrite parsed_eq.
  intros (_ & _ & f6 & f7 & _ & H7 & _ & ->)%parse_fields_Some.
  apply isascii_protocol_name.
  pose proof (isascii_split_ws line Hline) as Hall.
  rewrite Forall_forall in Hall. apply Hall.
  apply list_elem_of_lookup. eauto.
Qed.

End Ascii.

(** One counted line keeps the keys encodable. *)
Lemma counted_ascii p line :
  PyStr.isascii line = true -> ascii_table (lookup_dict p) ->
  ascii_counters p -> ascii_counters (counted p line).
Proof.
  intros Hline Htable [Htag Htraffic]. unfold counted.
  destruct (parsed line) as [[port proto]|] eqn:Hp; [|split; assumption].
  pose proof (isascii_parsed line port proto Hline Hp) as Hproto.
  split; simpl; apply map_Forall_insert_2; try assumption.
  - unfold resolve. destruct (lookup_dict p !! (port, proto)) as [tag|] eqn:Hl;
      [exact (Htable _ _ Hl)|reflexivity].
  - unfold traffic_key. rewrite !isascii_app, isascii_str_of_int, Hproto.
    reflexivity.
Qed.

Lemma foldl_counted_ascii f p :
  ascii_reads f -> ascii_table (lookup_dict p) -> ascii_counters p ->
  ascii_counters (foldl counted p (lines_read f)).
Proof.
  intros Hf. revert p. induction Hf as [|[line|] f Hr _ IH]; intros p Ht Hp;
    simpl; try assumption.
  apply IH; [rewrite counted_lookup; assumption|].
  apply counted_ascii; assumption.
Qed.

(** The loader stores only tags taken from its lines. *)
Lemma load_loop_ascii f num st :
  ascii_reads f -> ascii_table (lookup_dict (self st)) ->
  ascii_table (lookup_dict (self (load_loop f num st).2)).
Proof.
  intros Hf. revert num st.
  induction Hf as [|[line|] f Hr _ IH]; intros num st Ht; try assumption.
  rewrite load_loop_step. destruct (mapping_limit <=? num)%Z; [assumption|].
  destruct (classify line) as [| |key tag] eqn:Hk; apply IH; try assumption.
  simpl. apply map_Forall_insert_2; [|assumption].
  unfold classify in Hk.
  destruct (String.eqb (PyStr.strip line) ""); [discriminate|].
  pose proof (isascii_split_on "," _ (isascii_strip _ Hr)) as Hall.
  destruct (PyStr.split_on "," (PyStr.strip line)) as [|a [|b [|c [|]]]];
    try discriminate.
  destruct (PyStr.int a); [|discriminate]. injection Hk as _ <-.
  rewrite !Forall_cons in Hall. tauto.
Qed.

(** A complete run over decoded text writes the report in full. *)
Lemma main_complete_run (prog log_file lookup_file output_file : string)
    (fs : string -> file) (st st1 : pstate) :
  (getsize (fs log_file) <= max_log_size)%Z ->
  (getsize (fs lookup_file) <= max_lookup_size)%Z ->
  ascii_reads (reads (fs lookup_file)) ->
  ascii_reads (reads (fs log_file)) ->
  decodes (reads (fs log_file)) = true ->
  __init__ (fs lookup_file) st = (Ok tt, st1) ->
  exists p,
    process_logs (fs log_file) st1
    = (Ok tt, mkState p (console st1) (report st1)) /\
    main [prog; log_file; lookup_file; output_file] fs st
    = (0%Z, mkState p (console st1)
              (Some (layout (sorted_items (tag_count p))
                            (sorted_items (traffic_count p))))).
Proof.
  intros Hlog Hlookup Hal Hag Hdec Hinit.
  assert (Htable : ascii_table (lookup_dict (self st1)) /\
                   tag_count (self st1) = ∅ /\ traffic_count (self st1) = ∅).
  { revert Hinit. unfold __init__, _load_lookups. run.
    destruct (reads (fs lookup_file)) as [|[header|] f]; simpl;
      try discriminate.
    apply Forall_cons in Hal as [_ Hf].
    pose proof (load_loop_ascii f 0
                  (mkState (mkFlowParser ∅ ∅ ∅) (console st) (report st)) Hf
                  (map_Forall_empty _)) as Ha.
    pose proof (load_loop_frame f 0
                  (mkState (mkFlowParser ∅ ∅ ∅) (console st) (report st)))
      as (Ht1 & Ht2 & _).
    destruct (load_loop f 0 _) as [[[]|e] st']; simpl in *.
    - intros [= <-]. auto.
    - destruct (is_UnicodeDecodeError e); discriminate. }
  destruct Htable as (Htable & Htag0 & Htraffic0).
  exists (foldl counted (self st1) (lines_read (reads (fs log_file)))).
  assert (Hrun : process_logs (fs log_file) st1
                 = (Ok tt, mkState (foldl counted (self st1)
                                      (lines_read (reads (fs log_file))))
                                   (console st1) (report st1))).
  { rewrite process_logs_run, Hdec.
    destruct (Z.ltb_spec max_log_size (getsize (fs log_file))); [lia|].
    reflexivity. }
  split; [assumption|].
  rewrite main_run.
  destruct (Z.ltb_spec max_log_size (getsize (fs log_file))); [lia|].
  destruct (Z.ltb_spec max_lookup_size (getsize (fs lookup_file))); [lia|].
  unfold bind at 1. rewrite Hinit. unfold bind at 1. rewrite Hrun.
  destruct (foldl_counted_ascii (reads (fs log_file)) (self st1) Hag Htable)
    as [Ha1 Ha2].
  { split; [rewrite Htag0|rewrite Htraffic0]; apply map_Forall_empty. }
  rewrite (write_report_run
                    (mkState (foldl counted (self st1)
                                (lines_read (reads (fs log_file))))
                             (console st1) (report st1)) Ha1 Ha2).
  reflexivity.
Qed.

(** * Further properties *)

(** ** Counting *)

Section Keys.

Lemma lacks_uint d : lacks "," (NilEmpty.string_of_uint d) = true.
Proof. induction d; simpl; try assumption; reflexivity. Qed.

Lemma lacks_str_of_int n : lacks "," (PyStr.str_of_int n) = true.
Proof.
  unfold PyStr.str_of_int, NilZero.string_of_int, NilZero.string_of_uint.
  destruct (Z.to_int n) as [d|d]; destruct d; simpl;
    try reflexivity; apply lacks_uint.
Qed.

Lemma str_of_int_inj n n' :
  PyStr.str_of_int n = PyStr.str_of_int n' -> n = n'.
Proof.
  unfold PyStr.str_of_int. intros H. apply DecimalZ.to_int_inj.
  assert (Hn : forall z, NilZero.int_of_string
                           (NilZero.string_of_int (Z.to_int z))
                         = Some (Z.to_int z)).
  { intros z. apply NilZero.isi; destruct z; simpl; try discriminate;
      intros [= E]; exact (DecimalPos.Unsigned.to_uint_nonnil _ E). }
  pose proof (Hn n) as H1. rewrite H, Hn in H1. congruence.
Qed.

(** Text up to the first comma determines both sides of the comma. *)
Lemma comma_split a a' p p' :
  lacks "," a = true -> lacks "," a' = true ->
  a +:+ "," +:+ p = a' +:+ "," +:+ p' -> a = a' /\ p = p'.
Proof.
  revert a'. induction a as [|x a IH]; intros [|x' a'] Ha Ha' H;
    cbv beta iota delta [String.append] in H; fold String.append in H.
  - injection H as ->. auto.
  - injection H as <- _. simpl in Ha'. discriminate.
  - injection H as -> _. simpl in Ha. discriminate.
  - injection H as -> H. simpl in Ha, Ha'.
    apply andb_true_iff in Ha as [_ Ha]. apply andb_true_iff in Ha' as [_ Ha'].
    destruct (IH a' Ha Ha' H) as [-> ->]. auto.
Qed.

End Keys.

Lemma traffic_key_pair port port' proto proto' :
  traffic_key port proto = traffic_key port' proto' ->
  port = port' /\ proto = proto'.
Proof.
  unfold traffic_key. intros H.
  apply comma_split in H as [Hport ->]; try apply lacks_str_of_int.
  split; [apply str_of_int_inj; assumption|reflexivity].
Qed.

(** X1. Two different (port, protocol) pairs never share a traffic key:
    the key ["<port>,<protocol>"] determines the port and the protocol. *)
Theorem traffic_key_determines_pair (port port' : Z) (proto proto' : string) :
  PyStr.str_of_int port +:+ "," +:+ proto
  = PyStr.str_of_int port' +:+ "," +:+ proto' ->
  port = port' /\ proto = proto'.
Proof.
  apply traffic_key_pair.
Qed.

Lemma traffic_key_determines_pair_witness :
  (80 = 80)%Z /\ "tcp" = "tcp".
Proof. exact (traffic_key_determines_pair 80 80 "tcp" "tcp" eq_refl). Defined.

Section Counts.

Lemma dict_get_bump k k' d :
  dict_get (bump k d) k' 0%Z
  = (dict_get d k' 0 + if bool_decide (k = k') then 1 else 0)%Z.
Proof.
  unfold bump. unfold dict_get at 1.
  destruct (decide (k = k')) as [<-|Hne].
  - rewrite lookup_insert_eq, bool_decide_eq_true_2 by reflexivity. reflexivity.
  - rewrite lookup_insert_ne, bool_decide_eq_false_2 by assumption.
    unfold dict_get. simpl. lia.
Qed.

Lemma count_if_cons {A} (test : A -> bool) x l :
  count_if test (x :: l) = ((if test x then 1 else 0) + count_if test l)%Z.
Proof.
  unfold count_if. rewrite filter_cons. destruct (test x).
  - rewrite decide_True by reflexivity. simpl length. lia.
  - rewrite decide_False by discriminate. lia.
Qed.

Lemma count_if_nonneg {A} (test : A -> bool) l : (0 <= count_if test l)%Z.
Proof. unfold count_if. lia. Qed.

(** Each counter entry moves with the lines that concern it. *)
Lemma foldl_counted_gets lines p tag port proto :
  let q := foldl counted p lines in
  dict_get (tag_count q) tag 0%Z
  = (dict_get (tag_count p) tag 0
     + count_if (resolves_to (lookup_dict p) tag) lines)%Z /\
  dict_get (traffic_count q) (traffic_key port proto) 0%Z
  = (dict_get (traffic_count p) (traffic_key port proto) 0
     + count_if (parses_to port proto) lines)%Z.
Proof.
  revert p. induction lines as [|l lines IH]; intros p.
  - simpl. unfold count_if. simpl. split; lia.
  - cbv zeta. simpl foldl. rewrite !count_if_cons.
    destruct (IH (counted p l)) as [H1 H2]. rewrite H1, H2.
    rewrite counted_lookup. unfold resolves_to at 2, parses_to at 2, counted.
    destruct (parsed l) as [[port0 proto0]|]; cbn [tag_count traffic_count].
    + rewrite !dict_get_bump. split.
      * lia.
      * destruct (decide (traffic_key port0 proto0 = traffic_key port proto))
          as [Hk|Hk].
        -- apply traffic_key_pair in Hk as [-> ->].
           rewrite !bool_decide_eq_true_2 by reflexivity. lia.
        -- rewrite !bool_decide_eq_false_2; [lia| |assumption].
           intros [= -> ->]. contradiction.
    + rewrite bool_decide_eq_false_2 by discriminate. split; lia.
Qed.

Lemma positive_entry d k :
  positive_counts d -> d !! k = entry (dict_get d k 0%Z).
Proof.
  intros Hd. unfold entry, dict_get. destruct (d !! k) as [v|] eqn:Hk; simpl.
  - apply Hd in Hk. destruct (Z.eqb_spec v 0); [lia|reflexivity].
  - reflexivity.
Qed.

End Counts.

Lemma foldl_counted_keys lines p :
  (forall key n, traffic_count p !! key = Some n ->
                 exists port proto, key = traffic_key port proto) ->
  forall key n, traffic_count (foldl counted p lines) !! key = Some n ->
                exists port proto, key = traffic_key port proto.
Proof.
  revert p. induction lines as [|l lines IH]; intros p Hp; [exact Hp|].
  simpl. apply IH. unfold counted.
  destruct (parsed l) as [[port proto]|]; [|exact Hp].
  intros key n. cbn [traffic_count]. unfold bump.
  destruct (decide (traffic_key port proto = key)) as [<-|Hne].
  - eauto.
  - rewrite lookup_insert_ne by assumption. apply Hp.
Qed.

Lemma fresh_positive (d : gmap string Z) : d = ∅ -> positive_counts d.
Proof. intros -> k v. rewrite lookup_empty. discriminate. Qed.

(** X2. After a pass that starts from empty counters, the entry of a tag in
    TagCounts is the number of lines read that the parser accepts and the
    table resolves to that tag (["Untagged"] for pairs the table lacks);
    a tag no line resolves to has no entry. *)
Theorem tag_counts_exact (log : file) (table : gmap (Z * string) string)
    (out : list string) (rep : option string) (tag : string) :
  (getsize log <= max_log_size)%Z ->
  tag_count (self (process_logs log
                     (mkState (mkFlowParser table ∅ ∅) out rep)).2) !! tag
  = entry (count_if (resolves_to table tag) (lines_read (reads log))).
Proof.
  intros Hsize. rewrite process_logs_run.
  destruct (Z.ltb_spec max_log_size (getsize log)); [lia|].
  cbn [snd self].
  destruct (foldl_counted_totals (lines_read (reads log))
              (mkFlowParser table ∅ ∅)) as (_ & _ & Hpos & _);
    try (apply fresh_positive; reflexivity).
  rewrite (positive_entry _ tag Hpos).
  destruct (foldl_counted_gets (lines_read (reads log))
              (mkFlowParser table ∅ ∅) tag 0%Z "") as [-> _].
  reflexivity.
Qed.

Lemma tag_counts_exact_witness :
  tag_count (self (process_logs Sample.log start).2) !! "Untagged" = Some 5%Z /\
  tag_count (self (process_logs Sample.log start).2) !! "web" = None.
Proof.
  split.
  - exact (tag_counts_exact Sample.log ∅ [] None "Untagged"
             ltac:(vm_compute; discriminate)).
  - exact (tag_counts_exact Sample.log ∅ [] None "web"
             ltac:(vm_compute; discriminate)).
Defined.

(** X3. After a pass that starts from empty counters, the entry of
    ["<port>,<protocol>"] in TrafficCounts is the number of lines read that
    parse to exactly that port and protocol, and TrafficCounts has no key of
    any other form. *)
Theorem traffic_counts_exact (log : file) (table : gmap (Z * string) string)
    (out : list string) (rep : option string) :
  (getsize log <= max_log_size)%Z ->
  let after := (process_logs log (mkState (mkFlowParser table ∅ ∅) out rep)).2 in
  (forall port proto,
     traffic_count (self after) !! (PyStr.str_of_int port +:+ "," +:+ proto)
     = entry (count_if (parses_to port proto) (lines_read (reads log)))) /\
  (forall key n,
     traffic_count (self after) !! key = Some n ->
     exists port proto,
       key = PyStr.str_of_int port +:+ "," +:+ proto /\
       In (Some (port, proto)) (map parsed (lines_read (reads log)))).
Proof.
  intros Hsize. cbv zeta. rewrite process_logs_run.
  destruct (Z.ltb_spec max_log_size (getsize log)); [lia|].
  cbn [snd self].
  destruct (foldl_counted_totals (lines_read (reads log))
              (mkFlowParser table ∅ ∅)) as (_ & _ & _ & Hpos);
    try (apply fresh_positive; reflexivity).
  assert (Hget : forall port proto,
            traffic_count (foldl counted (mkFlowParser table ∅ ∅)
                             (lines_read (reads log)))
              !! traffic_key port proto
            = entry (count_if (parses_to port proto) (lines_read (reads log)))).
  { intros port proto. rewrite (positive_entry _ _ Hpos).
    destruct (foldl_counted_gets (lines_read (reads log))
                (mkFlowParser table ∅ ∅) "" port proto) as [_ ->].
    reflexivity. }
  split; [exact Hget|].
  intros key n Hkey.
  destruct (foldl_counted_keys (lines_read (reads log))
              (mkFlowParser table ∅ ∅)) with (key := key) (n := n)
    as (port & proto & ->); [|assumption|].
  { intros k v. simpl. rewrite lookup_empty. discriminate. }
  exists port, proto. split; [reflexivity|].
  rewrite Hget in Hkey. unfold entry in Hkey.
  destruct (Z.eqb_spec (count_if (parses_to port proto)
                          (lines_read (reads log))) 0) as [|Hne];
    [discriminate|].
  unfold count_if in Hne.
  destruct (filter _ _) as [|l ls] eqn:Hf; [simpl in Hne; lia|].
  assert (Hl : l ∈ filter (fun x => parses_to port proto x = true)
                      (lines_read (reads log))) by (rewrite Hf; left).
  apply list_elem_of_filter in Hl as [Hl Hin].
  unfold parses_to in Hl. apply bool_decide_eq_true_1 in Hl.
  rewrite <- Hl. apply in_map. apply list_elem_of_In. assumption.
Qed.

Lemma traffic_counts_exact_witness :
  traffic_count (self (process_logs Sample.log start).2) !! "80,tcp" = Some 2%Z /\
  traffic_count (self (process_logs Sample.log start).2) !! "443,tcp" = None.
Proof.
  pose proof (traffic_counts_exact Sample.log ∅ [] None
                ltac:(vm_compute; discriminate)) as [H _].
  split; [exact (H 80%Z "tcp") | exact (H 443%Z "tcp")].
Defined.

(** ** Order and composition of passes *)

Lemma bump_comm k k' d : bump k (bump k' d) = bump k' (bump k d).
Proof.
  destruct (decide (k = k')) as [->|Hne]; [reflexivity|].
  unfold bump, dict_get.
  rewrite !lookup_insert_ne by congruence.
  apply insert_insert_ne. assumption.
Qed.

Lemma counted_comm p a b : counted (counted p a) b = counted (counted p b) a.
Proof.
  unfold counted.
  destruct (parsed a) as [[pa qa]|], (parsed b) as [[pb qb]|];
    cbn [lookup_dict tag_count traffic_count]; try reflexivity.
  f_equal; apply bump_comm.
Qed.

Lemma foldl_counted_perm l1 l2 p :
  l1 ≡ₚ l2 -> foldl counted p l1 = foldl counted p l2.
Proof.
  intros Hperm. revert p.
  induction Hperm as [|x l1 l2 _ IH|x y l|l1 l2 l3 _ IH1 _ IH2]; intros p.
  - reflexivity.
  - simpl. apply IH.
  - simpl. rewrite counted_comm. reflexivity.
  - rewrite IH1. apply IH2.
Qed.

(** X4. The counters do not depend on the order of the lines: two logs
    within the size limit whose lines read are the same up to order leave
    the same instance behind. *)
Theorem line_order_irrelevant (a b : file) (st : pstate) :
  (getsize a <= max_log_size)%Z -> (getsize b <= max_log_size)%Z ->
  lines_read (reads a) ≡ₚ lines_read (reads b) ->
  self (process_logs a st).2 = self (process_logs b st).2.
Proof.
  intros Ha Hb Hperm. rewrite !process_logs_run.
  destruct (Z.ltb_spec max_log_size (getsize a)); [lia|].
  destruct (Z.ltb_spec max_log_size (getsize b)); [lia|].
  simpl. apply foldl_counted_perm. assumption.
Qed.

Lemma line_order_irrelevant_witness :
  self (process_logs
          (mkFile 204 [Line (Sample.rec "80" "6"); Line (Sample.rec "2" "17")])
          start).2
  = self (process_logs
            (mkFile 204 [Line (Sample.rec "2" "17"); Line (Sample.rec "80" "6")])
            start).2.
Proof.
  apply line_order_irrelevant.
  - vm_compute. discriminate.
  - vm_compute. discriminate.
  - apply perm_swap.
Defined.

Lemma lines_read_app f g :
  decodes f = true -> lines_read (f ++ g) = (lines_read f ++ lines_read g)%list.
Proof.
  induction f as [|[line|] f IH]; intros Hf; [reflexivity| |discriminate].
  simpl. rewrite IH by assumption. reflexivity.
Qed.

Lemma decodes_app f g : decodes f = true -> decodes (f ++ g) = decodes g.
Proof.
  induction f as [|[line|] f IH]; intros Hf; [reflexivity| |discriminate].
  simpl. apply IH. assumption.
Qed.

Lemma count_if_app {A} (test : A -> bool) l1 l2 :
  count_if test (l1 ++ l2) = (count_if test l1 + count_if test l2)%Z.
Proof. unfold count_if. rewrite filter_app, length_app. lia. Qed.

(** X5. Passes add up. After [process_logs] on a log [a] and then on a log
    [b] on the same instance, both within the size limit, the count of a
    tag (0 when absent) is its count before plus the number of lines read
    from [a] and the number of lines read from [b] that resolve to it, and
    likewise for every traffic key; nothing is reset in between, and the
    two passes in the other order leave the same instance. This holds
    whether or not a pass ends with the decode error. *)
Theorem passes_compose (a b : file) (st : pstate) :
  (getsize a <= max_log_size)%Z -> (getsize b <= max_log_size)%Z ->
  let after := (process_logs b (process_logs a st).2).2 in
  (forall tag,
     dict_get (tag_count (self after)) tag 0%Z
     = (dict_get (tag_count (self st)) tag 0
        + count_if (resolves_to (lookup_dict (self st)) tag)
            (lines_read (reads a))
        + count_if (resolves_to (lookup_dict (self st)) tag)
            (lines_read (reads b)))%Z) /\
  (forall port proto,
     dict_get (traffic_count (self after))
       (PyStr.str_of_int port +:+ "," +:+ proto) 0%Z
     = (dict_get (traffic_count (self st))
          (PyStr.str_of_int port +:+ "," +:+ proto) 0
        + count_if (parses_to port proto) (lines_read (reads a))
        + count_if (parses_to port proto) (lines_read (reads b)))%Z) /\
  self after = self (process_logs a (process_logs b st).2).2.
Proof.
  intros Ha Hb. cbv zeta. rewrite !process_logs_run.
  destruct (Z.ltb_spec max_log_size (getsize a)); [lia|].
  destruct (Z.ltb_spec max_log_size (getsize b)); [lia|].
  cbn [snd self]. rewrite <- !foldl_app.
  split; [|split].
  - intros tag.
    destruct (foldl_counted_gets
                (lines_read (reads a) ++ lines_read (reads b)) (self st)
                tag 0%Z "") as [-> _].
    rewrite count_if_app. lia.
  - intros port proto.
    destruct (foldl_counted_gets
                (lines_read (reads a) ++ lines_read (reads b)) (self st)
                "" port proto) as [_ Hget].
    unfold traffic_key in Hget. rewrite Hget, count_if_app. lia.
  - apply foldl_counted_perm. apply Permutation_app_comm.
Qed.

Lemma passes_compose_witness :
  dict_get (traffic_count
              (self (process_logs Sample.log
                       (process_logs Sample.log start).2).2)) "80,tcp" 0%Z
  = 4%Z.
Proof.
  pose proof (passes_compose Sample.log Sample.log start
                ltac:(vm_compute; discriminate)
                ltac:(vm_compute; discriminate)) as (_ & H & _).
  specialize (H 80%Z "tcp").
  change (PyStr.str_of_int 80 +:+ "," +:+ "tcp") with "80,tcp" in H.
  rewrite H. vm_compute. reflexivity.
Defined.

(** ** Replaying a run *)

(** What the loader stores and how it ends depends on the instance it is
    given, not on the console or the report. *)
Lemma load_loop_same_self f num st st' :
  self st = self st' ->
  (load_loop f num st).1 = (load_loop f num st').1 /\
  self (load_loop f num st).2 = self (load_loop f num st').2.
Proof.
  revert num st st'. induction f as [|[line|] f IH]; intros num st st' Hself.
  - simpl. auto.
  - rewrite !load_loop_step.
    destruct (mapping_limit <=? num)%Z; [simpl; auto|].
    destruct (classify line) as [| |key tag].
    + apply IH. assumption.
    + apply IH. assumption.
    + apply IH. simpl. rewrite Hself. reflexivity.
  - simpl. auto.
Qed.

(** The constructor starts from a fresh instance: its outcome and the
    instance it leaves are the same from every state. *)
Lemma __init___same_self lookups st st' :
  (__init__ lookups st).1 = (__init__ lookups st').1 /\
  self (__init__ lookups st).2 = self (__init__ lookups st').2.
Proof.
  unfold __init__, _load_lookups. run.
  destruct (reads lookups) as [|[header|] f]; simpl; auto.
  destruct (load_loop_same_self f 0
              (mkState (mkFlowParser ∅ ∅ ∅) (console st) (report st))
              (mkState (mkFlowParser ∅ ∅ ∅) (console st') (report st'))
              eq_refl) as [H1 H2].
  destruct (load_loop f 0 (mkState _ (console st) _)) as [r1 st1].
  destruct (load_loop f 0 (mkState _ (console st') _)) as [r2 st2].
  simpl in *. subst r2.
  destruct r1 as [[]|e]; simpl; [auto|].
  destruct (is_UnicodeDecodeError e); simpl; auto.
Qed.

Lemma entry_double c :
  (0 <= c)%Z -> entry (0 + c + c) = Z.mul 2 <$> entry (0 + c).
Proof.
  intros Hc. unfold entry.
  destruct (Z.eqb_spec (0 + c + c) 0), (Z.eqb_spec (0 + c) 0); simpl;
    try lia; try reflexivity.
  f_equal. lia.
Qed.

(** A second pass over the same lines adds to every entry what the first
    pass added. *)
Lemma foldl_counted_twice lines table :
  let once := foldl counted (mkFlowParser table ∅ ∅) lines in
  let twice := foldl counted once lines in
  tag_count twice = Z.mul 2 <$> tag_count once /\
  traffic_count twice = Z.mul 2 <$> traffic_count once.
Proof.
  cbv zeta.
  set (once := foldl counted (mkFlowParser table ∅ ∅) lines).
  destruct (foldl_counted_totals lines (mkFlowParser table ∅ ∅))
    as (_ & _ & Hp1 & Hp2); try (apply fresh_positive; reflexivity).
  fold once in Hp1, Hp2.
  destruct (foldl_counted_totals lines once Hp1 Hp2) as (_ & _ & Hq1 & Hq2).
  assert (Htable : lookup_dict once = table)
    by (unfold once; rewrite foldl_counted_lookup; reflexivity).
  split; apply map_eq; intros k; rewrite lookup_fmap.
  - rewrite (positive_entry _ k Hq1), (positive_entry _ k Hp1).
    destruct (foldl_counted_gets lines once k 0%Z "") as [-> _].
    destruct (foldl_counted_gets lines (mkFlowParser table ∅ ∅) k 0%Z "")
      as [H _].
    fold once in H. rewrite Htable.
    cbn [tag_count] in H. unfold dict_get at 2 in H.
    rewrite lookup_empty in H. simpl in H. rewrite H.
    apply entry_double, count_if_nonneg.
  - destruct (traffic_count (foldl counted once lines) !! k) as [n|] eqn:Hk.
    + destruct (foldl_counted_keys lines once) with (key := k) (n := n)
        as (port & proto & ->); [|assumption|].
      { apply (foldl_counted_keys lines (mkFlowParser table ∅ ∅)).
        intros key v. simpl. rewrite lookup_empty. discriminate. }
      rewrite <- Hk.
      rewrite (positive_entry _ _ Hq2), (positive_entry _ _ Hp2).
      destruct (foldl_counted_gets lines once "" port proto) as [_ ->].
      destruct (foldl_counted_gets lines (mkFlowParser table ∅ ∅)
                  "" port proto) as [_ H].
      fold once in H. cbn [traffic_count] in H. unfold dict_get at 2 in H.
      rewrite lookup_empty in H. simpl in H. rewrite H.
      apply entry_double, count_if_nonneg.
    + destruct (traffic_count once !! k) as [m|] eqn:Hm; [|reflexivity].
      destruct (foldl_counted_grows lines once) as [_ Hg].
      destruct (Hg k m Hm) as (m' & Hm' & _). congruence.
Qed.

(** C8, as the code behaves. A run that builds a parser from the lookup
    file and aggregates the log gives the same outcome and the same
    instance - table, TagCounts and TrafficCounts - when it is replayed in
    the state the first run left behind: the constructor starts the
    counters empty each time. The aggregator itself resets nothing: called
    again on the instance of a completed run, it leaves every count of
    TagCounts and of TrafficCounts doubled. *)
Theorem rerun_same_counts (lookups log : file) (st : pstate) :
  let run := __init__ lookups >> process_logs log in
  let first := run st in
  let second := run first.2 in
  let again := process_logs log first.2 in
  second.1 = first.1 /\
  self second.2 = self first.2 /\
  (first.1 = Ok tt ->
   again.1 = Ok tt /\
   lookup_dict (self again.2) = lookup_dict (self first.2) /\
   tag_count (self again.2) = Z.mul 2 <$> tag_count (self first.2) /\
   traffic_count (self again.2) = Z.mul 2 <$> traffic_count (self first.2)).
Proof.
  cbv zeta. unfold bind.
  destruct (__init___same_self lookups st
              (let (r, st') := __init__ lookups st in
               match r with
               | Ok _ => process_logs log st'
               | Raise e => (Raise e, st')
               end).2) as [Hr Hs].
  assert (Hempty : forall s,
            tag_count (self (__init__ lookups s).2) = ∅ /\
            traffic_count (self (__init__ lookups s).2) = ∅).
  { intros s. unfold __init__, _load_lookups. run.
    destruct (reads lookups) as [|[header|] f]; simpl; auto.
    pose proof (load_loop_frame f 0
                  (mkState (mkFlowParser ∅ ∅ ∅) (console s) (report s)))
      as (H1 & H2 & _ & _).
    destruct (load_loop f 0 _) as [[[]|e] s']; simpl in *;
      [auto|destruct (is_UnicodeDecodeError e); auto]. }
  destruct (Hempty st) as [Htag Htraffic].
  destruct (__init__ lookups st) as [r1 st1] eqn:Hinit1.
  destruct (__init__ lookups _) as [r2 st2] eqn:Hinit2 in Hr, Hs |- *.
  simpl in Hr, Hs, Htag, Htraffic. subst r2.
  destruct r1 as [[]|e].
  - rewrite !process_logs_run.
    destruct (max_log_size <? getsize log)%Z eqn:Hsize.
    + simpl. split; [reflexivity|]. split; [congruence|]. discriminate.
    + cbn [fst snd self console report].
      split; [reflexivity|]. split; [rewrite Hs; reflexivity|].
      intros Hok. split; [assumption|].
      rewrite !foldl_counted_lookup. split; [reflexivity|].
      destruct st1 as [[table tags traffic] out rep].
      simpl in Htag, Htraffic. subst tags traffic. cbn [self].
      apply foldl_counted_twice.
  - simpl. split; [reflexivity|]. split; [congruence|]. discriminate.
Qed.

Lemma rerun_same_counts_witness :
  tag_count (self (process_logs Sample.log
                     ((__init__ Sample.lookups >> process_logs Sample.log)
                        start).2).2)
  = Z.mul 2 <$> tag_count (self ((__init__ Sample.lookups >>
                                  process_logs Sample.log) start).2).
Proof.
  pose proof (rerun_same_counts Sample.lookups Sample.log start)
    as (_ & _ & H).
  destruct H as (_ & _ & Htag & _); [vm_compute; reflexivity|].
  exact Htag.
Defined.

(** C8 as stated fails for two calls on one parser: after the second pass
    over the same log, with the same table, the counts are not those of the
    first pass. *)
Lemma second_pass_doubles_counts :
  lookup_dict (self (process_logs Sample.log start).2) = lookup_dict (self start) /\
  traffic_count (self (process_logs Sample.log start).2) !! "80,tcp"
  = Some 2%Z /\
  traffic_count (self (process_logs Sample.log
                         (process_logs Sample.log start).2).2) !! "80,tcp"
  = Some 4%Z /\
  tag_count (self (process_logs Sample.log start).2) !! "Untagged"
  = Some 5%Z /\
  tag_count (self (process_logs Sample.log
                     (process_logs Sample.log start).2).2) !! "Untagged"
  = Some 10%Z.
Proof. repeat (split; [vm_compute; reflexivity|]). vm_compute. reflexivity. Qed.

(** X6. [process_logs] changes nothing but the two counters, and there it
    only adds: whether it returns or raises, the lookup table, the console
    and the report file are as before, and every entry that was in a
    counter is still there with a count at least as large. The only
    exception it raises is [ValueError]. *)
Theorem process_logs_only_counts_up (log : file) (st : pstate) :
  let out := process_logs log st in
  lookup_dict (self out.2) = lookup_dict (self st) /\
  console out.2 = console st /\
  report out.2 = report st /\
  (forall tag n, tag_count (self st) !! tag = Some n ->
     exists n', tag_count (self out.2) !! tag = Some n' /\ (n <= n')%Z) /\
  (forall key n, traffic_count (self st) !! key = Some n ->
     exists n', traffic_count (self out.2) !! key = Some n' /\ (n <= n')%Z) /\
  (out.1 = Ok tt \/ exists msg, out.1 = Raise (ValueError msg)).
Proof.
  cbv zeta. rewrite process_logs_run.
  destruct (max_log_size <? getsize log)%Z.
  - simpl. repeat split; eauto.
    + intros k n Hk. exists n. split; [assumption|lia].
    + intros k n Hk. exists n. split; [assumption|lia].
  - cbn [fst snd self console report].
    destruct (foldl_counted_grows (lines_read (reads log)) (self st))
      as [H1 H2].
    split; [apply foldl_counted_lookup|].
    do 2 (split; [reflexivity|]).
    split; [exact H1|]. split; [exact H2|].
    destruct (decodes (reads log)); eauto.
Qed.

(** ** What the loader stores *)

Section Lower.

Lemma lower_char_idem c : PyStr.lower_char (PyStr.lower_char c) = PyStr.lower_char c.
Proof. destruct c as [[] [] [] [] [] [] [] []]; reflexivity. Qed.

Lemma lower_idem s : PyStr.lower (PyStr.lower s) = PyStr.lower s.
Proof.
  induction s as [|c s IH]; [reflexivity|].
  simpl. rewrite lower_char_idem, IH. reflexivity.
Qed.

End Lower.

(** What [classify] says about a mapping, in terms of the pieces of the
    line. *)
Lemma classify_Mapping line key tag :
  classify line = Mapping key tag <->
  exists port proto n,
    PyStr.split_on "," (PyStr.strip line) = [port; proto; tag] /\
    PyStr.int port = Some n /\ key = (n, PyStr.lower proto).
Proof.
  unfold classify. split.
  - destruct (String.eqb (PyStr.strip line) ""); [discriminate|].
    destruct (PyStr.split_on "," (PyStr.strip line)) as [|a [|b [|c [|]]]];
      try discriminate.
    destruct (PyStr.int a) as [n|] eqn:Hn; [|discriminate].
    intros [= <- <-]. eauto 10.
  - intros (port & proto & n & Hsplit & Hint & ->).
    destruct (String.eqb_spec (PyStr.strip line) "") as [E|_].
    { rewrite E in Hsplit. discriminate. }
    rewrite Hsplit, Hint. reflexivity.
Qed.

Lemma load_loop_outcome f num st :
  (load_loop f num st).1 = Ok tt \/
  (load_loop f num st).1 = Raise UnicodeDecodeError.
Proof.
  revert num st. induction f as [|[line|] f IH]; intros num st.
  - left. reflexivity.
  - rewrite load_loop_step.
    destruct (mapping_limit <=? num)%Z; [left; reflexivity|].
    destruct (classify line); apply IH.
  - right. reflexivity.
Qed.

(** Every entry of the table was there before or was stored from a line. *)
Lemma load_loop_entries f num st key tag :
  lookup_dict (self (load_loop f num st).2) !! key = Some tag ->
  lookup_dict (self st) !! key = Some tag \/
  exists line, Line line ∈ f /\ classify line = Mapping key tag.
Proof.
  revert num st. induction f as [|[line|] f IH]; intros num st; try (left; assumption).
  rewrite load_loop_step.
  destruct (mapping_limit <=? num)%Z; [left; assumption|].
  destruct (classify line) as [| |k t] eqn:Hk; intros H; apply IH in H.
  - destruct H as [H|(l & Hl & Hc)]; [left; assumption|].
    right. exists l. split; [right|]; assumption.
  - destruct H as [H|(l & Hl & Hc)]; [left; assumption|].
    right. exists l. split; [right|]; assumption.
  - destruct H as [H|(l & Hl & Hc)].
    + simpl in H. destruct (decide (k = key)) as [->|Hne].
      * rewrite lookup_insert_eq in H. injection H as ->.
        right. exists line. split; [left|assumption].
      * rewrite lookup_insert_ne in H by assumption. left. assumption.
    + right. exists l. split; [right|]; assumption.
Qed.

(** X7. The table holds nothing but what the lines after the header say:
    every entry [(port, proto) -> tag] comes from a line whose three
    comma-separated pieces are a port text with that integer value, a
    protocol text whose lower-case form is [proto], and [tag] unchanged.
    In particular every protocol stored is in lower case. *)
Theorem table_entries_come_from_lines (lookups : file) (st : pstate)
    (port : Z) (proto tag : string) :
  lookup_dict (self (__init__ lookups st).2) !! (port, proto) = Some tag ->
  PyStr.lower proto = proto /\
  exists header f line port_text proto_text,
    reads lookups = Line header :: f /\ Line line ∈ f /\
    PyStr.split_on "," (PyStr.strip line) = [port_text; proto_text; tag] /\
    PyStr.int port_text = Some port /\
    proto = PyStr.lower proto_text.
Proof.
  unfold __init__, _load_lookups. run.
  destruct (reads lookups) as [|[header|] f] eqn:Hreads; simpl;
    try (rewrite lookup_empty; discriminate).
  intros H.
  assert (Hl : lookup_dict
                 (self (load_loop f 0
                          (mkState (mkFlowParser ∅ ∅ ∅) (console st)
                                   (report st))).2) !! (port, proto)
               = Some tag).
  { destruct (load_loop f 0 _) as [[[]|e] st']; simpl in *;
      [assumption|destruct (is_UnicodeDecodeError e); assumption]. }
  apply load_loop_entries in Hl as [Hl|(line & Hin & Hc)].
  { simpl in Hl. rewrite lookup_empty in Hl. discriminate. }
  apply classify_Mapping in Hc as (pt & qt & n & Hsplit & Hint & [= -> ->]).
  split; [apply lower_idem|]. eauto 10.
Qed.

Lemma table_entries_come_from_lines_witness :
  PyStr.lower "tcp" = "tcp" /\
  exists header f line port_text proto_text,
    reads Sample.lookups = Line header :: f /\ Line line ∈ f /\
    PyStr.split_on "," (PyStr.strip line) = [port_text; proto_text; "web"] /\
    PyStr.int port_text = Some 80%Z /\
    "tcp" = PyStr.lower proto_text.
Proof.
  apply (table_entries_come_from_lines Sample.lookups start 80%Z "tcp" "web").
  vm_compute. reflexivity.
Defined.

Lemma count_mappings_zero f t :
  count_mappings f = 0%Z -> foldl stored t f = t.
Proof.
  induction f as [|r f IH]; [reflexivity|].
  rewrite count_mappings_cons. pose proof (count_mappings_nonneg f).
  destruct (is_mapping r) eqn:Hr; [lia|]. intros Hf. simpl.
  rewrite <- (IH Hf) at 2. f_equal.
  unfold stored, is_mapping in *. destruct r as [line|]; [|reflexivity].
  destruct (classify line); (reflexivity || discriminate).
Qed.

(** With no more mappings than the limit allows, none is lost. *)
Lemma load_loop_table f num st :
  decodes f = true ->
  (num + count_mappings f <= mapping_limit)%Z ->
  (load_loop f num st).1 = Ok tt /\
  lookup_dict (self (load_loop f num st).2)
  = foldl stored (lookup_dict (self st)) f.
Proof.
  revert num st. induction f as [|[line|] f IH]; intros num st Hdec Hcount;
    [split; reflexivity| |discriminate].
  rewrite load_loop_step. rewrite count_mappings_cons in Hcount.
  pose proof (count_mappings_nonneg f) as Hpos. simpl in Hdec.
  destruct (Z.leb_spec mapping_limit num) as [Hge|Hlt].
  - split; [reflexivity|]. cbn [snd printed self].
    rewrite count_mappings_zero; [reflexivity|].
    rewrite count_mappings_cons. destruct (is_mapping (Line line)); lia.
  - unfold is_mapping in Hcount. simpl foldl.
    destruct (classify line) as [| |key tag].
    + apply IH; [assumption|lia].
    + destruct (IH num (printed st ("Skipping bad line: " +:+ PyStr.strip line)))
        as [H1 H2]; [assumption|lia|]. split; assumption.
    + destruct (IH (num + 1)%Z
        (mkState (with_lookup (self st) (<[key := tag]> (lookup_dict (self st))))
                 (console st) (report st))) as [H1 H2]; [assumption|lia|].
      split; assumption.
Qed.

Lemma foldl_stored_other post t key :
  (forall line tag, Line line ∈ post -> classify line <> Mapping key tag) ->
  foldl stored t post !! key = t !! key.
Proof.
  revert t. induction post as [|r post IH]; intros t Hpost; [reflexivity|].
  simpl. rewrite IH.
  - unfold stored. destruct r as [line|]; [|reflexivity].
    destruct (classify line) as [| |k tag] eqn:Hk; try reflexivity.
    apply lookup_insert_ne. intros ->. apply (Hpost line tag); [left|assumption].
  - intros line tag Hin. apply Hpost. right. assumption.
Qed.

(** X8. Last write wins: when the source decodes and has at most 10,000
    mapping lines, the constructor succeeds and the table gives, for the
    key of a mapping line that no later mapping line repeats, the tag of
    that line - whatever earlier lines said about the key. The key is the
    integer value of the port piece and the lower-case form of the
    protocol piece. *)
Theorem last_mapping_wins (lookups : file) (st : pstate) (header line : string)
    (pre post : list read) (port_text proto_text tag : string) (port : Z) :
  reads lookups = Line header :: (pre ++ Line line :: post)%list ->
  decodes (pre ++ Line line :: post) = true ->
  (count_mappings (pre ++ Line line :: post) <= mapping_limit)%Z ->
  PyStr.split_on "," (PyStr.strip line) = [port_text; proto_text; tag] ->
  PyStr.int port_text = Some port ->
  (forall line' tag', Line line' ∈ post ->
     classify line' <> Mapping (port, PyStr.lower proto_text) tag') ->
  (__init__ lookups st).1 = Ok tt /\
  lookup_dict (self (__init__ lookups st).2) !! (port, PyStr.lower proto_text)
  = Some tag.
Proof.
  intros Hreads Hdec Hcount Hsplit Hint Hlast.
  destruct (load_loop_table (pre ++ Line line :: post) 0
              (mkState (mkFlowParser ∅ ∅ ∅) (console st) (report st)) Hdec
              ltac:(lia)) as [Hok Htable].
  unfold __init__, _load_lookups. rewrite Hreads. run.
  destruct (load_loop (pre ++ Line line :: post) 0 _) as [r st'].
  simpl in Hok, Htable. subst r. simpl. split; [reflexivity|].
  rewrite Htable, foldl_app. simpl foldl.
  rewrite foldl_stored_other by assumption.
  unfold stored at 1.
  assert (Hc : classify line = Mapping (port, PyStr.lower proto_text) tag).
  { apply classify_Mapping. eauto 10. }
  rewrite Hc. apply lookup_insert_eq.
Qed.

Lemma last_mapping_wins_witness :
  lookup_dict
    (self (__init__
             (mkFile 44 [Line ("dstport,protocol,tag" +:+ nl);
                         Line ("80,tcp,web" +:+ nl);
                         Line ("80,TCP,http" +:+ nl)]) start).2)
    !! (80%Z, "tcp")
  = Some "http".
Proof.
  refine (proj2 (last_mapping_wins
                   (mkFile 44 [Line ("dstport,protocol,tag" +:+ nl);
                               Line ("80,tcp,web" +:+ nl);
                               Line ("80,TCP,http" +:+ nl)])
                   start ("dstport,protocol,tag" +:+ nl) ("80,TCP,http" +:+ nl)
                   [Line ("80,tcp,web" +:+ nl)] [] "80" "TCP" "http" 80%Z
                   eq_refl eq_refl _ eq_refl eq_refl _)).
  - vm_compute. discriminate.
  - intros line' tag' Hin. inversion Hin.
Defined.

(** ** How the constructor can end *)

Lemma load_loop_console f num st :
  console st `prefix_of` console (load_loop f num st).2.
Proof.
  revert num st. induction f as [|[line|] f IH]; intros num st.
  - simpl. reflexivity.
  - rewrite load_loop_step.
    destruct (mapping_limit <=? num)%Z.
    { simpl. apply prefix_app_r. reflexivity. }
    destruct (classify line) as [| |key tag].
    + apply IH.
    + etransitivity; [|apply IH]. simpl. apply prefix_app_r. reflexivity.
    + exact (IH (num + 1)%Z
               (mkState (with_lookup (self st)
                           (<[key := tag]> (lookup_dict (self st))))
                        (console st) (report st))).
  - simpl. reflexivity.
Qed.

(** X9. However it ends, the constructor leaves both counters empty, the
    report file untouched and the console extended at most. It ends in one
    of three ways: normally; with [StopIteration], exactly when the lookup
    source has no line at all; or with the [ValueError] for non-ASCII
    content. A malformed line never makes it fail. *)
Theorem constructor_outcomes (lookups : file) (st : pstate) :
  let out := __init__ lookups st in
  tag_count (self out.2) = ∅ /\
  traffic_count (self out.2) = ∅ /\
  report out.2 = report st /\
  console st `prefix_of` console out.2 /\
  (out.1 = Ok tt \/ out.1 = Raise StopIteration \/
   out.1 = Raise (ValueError "Lookup file must be ASCII text")) /\
  (out.1 = Raise StopIteration <-> reads lookups = []).
Proof.
  cbv zeta. unfold __init__, _load_lookups. run.
  destruct (reads lookups) as [|[header|] f]; simpl.
  - repeat split; auto.
  - pose proof (load_loop_frame f 0
                  (mkState (mkFlowParser ∅ ∅ ∅) (console st) (report st)))
      as (H1 & H2 & H3 & _).
    pose proof (load_loop_console f 0
                  (mkState (mkFlowParser ∅ ∅ ∅) (console st) (report st)))
      as H4.
    pose proof (load_loop_outcome f 0
                  (mkState (mkFlowParser ∅ ∅ ∅) (console st) (report st)))
      as H5.
    destruct (load_loop f 0 _) as [r st']. simpl in *.
    destruct H5 as [-> | ->]; simpl; repeat split; auto; discriminate.
  - repeat split; auto; discriminate.
Qed.

(** A bad byte that is reached ends the loop with what was stored so far. *)
Lemma load_loop_bad pre post num st :
  decodes pre = true ->
  (num + count_mappings (removelast pre) < mapping_limit)%Z ->
  load_loop (pre ++ BadByte :: post) num st
  = (Raise UnicodeDecodeError, (load_loop pre num st).2).
Proof.
  revert num st. induction pre as [|[x|] pre IH]; intros num st Hdec Hnum;
    [reflexivity| |discriminate].
  rewrite <- app_comm_cons, !load_loop_step.
  pose proof (count_mappings_nonneg (removelast (Line x :: pre))) as Hpos.
  destruct (Z.leb_spec mapping_limit num); [lia|].
  simpl in Hdec. destruct pre as [|r pre].
  { destruct (classify x); reflexivity. }
  change (removelast (Line x :: r :: pre)) with (Line x :: removelast (r :: pre))
    in Hnum.
  rewrite count_mappings_cons in Hnum. unfold is_mapping in Hnum.
  destruct (classify x); apply IH; assumption || lia.
Qed.

(** X10. A byte above 127 that the loader gets to read ends the
    construction with [ValueError("Lookup file must be ASCII text")]: this
    holds for the header and for every later read that fewer than 10,000
    mappings precede at the read before it - also for the read that
    directly follows the 10,000th mapping. The mappings stored before the
    failure stay in the table, and [main] ends with status 1 after
    printing the message, without a report. *)
Theorem lookup_bad_byte_aborts (lookups : file) (st : pstate)
    (pre post : list read) :
  reads lookups = (pre ++ BadByte :: post)%list ->
  decodes pre = true ->
  (count_mappings (removelast (tail pre)) < mapping_limit)%Z ->
  __init__ lookups st
  = (Raise (ValueError "Lookup file must be ASCII text"),
     (__init__ (mkFile (getsize lookups) pre) st).2) /\
  forall prog log_file lookup_file output_file fs,
    fs lookup_file = lookups ->
    (getsize (fs log_file) <= max_log_size)%Z ->
    (getsize lookups <= max_lookup_size)%Z ->
    main [prog; log_file; lookup_file; output_file] fs st
    = (1%Z, printed (__init__ (mkFile (getsize lookups) pre) st).2
                    "Error: Lookup file must be ASCII text").
Proof.
  intros Hreads Hdec Hcount.
  assert (Hinit : __init__ lookups st
                  = (Raise (ValueError "Lookup file must be ASCII text"),
                     (__init__ (mkFile (getsize lookups) pre) st).2)).
  { unfold __init__, _load_lookups. rewrite Hreads. run.
    destruct pre as [|[header|] pre]; [reflexivity| |discriminate].
    simpl in *. rewrite (load_loop_bad pre post 0) by (assumption || lia).
    simpl.
    destruct (load_loop pre 0 _) as [[[]|e] st']; simpl;
      [reflexivity|destruct (is_UnicodeDecodeError e); reflexivity]. }
  split; [assumption|].
  intros prog log_file lookup_file output_file fs Hfs Hlog Hlookup.
  rewrite main_run, Hfs.
  destruct (Z.ltb_spec max_log_size (getsize (fs log_file))); [lia|].
  destruct (Z.ltb_spec max_lookup_size (getsize lookups)); [lia|].
  unfold bind at 1. rewrite Hinit. reflexivity.
Qed.


Lemma lookup_bad_byte_aborts_witness :
  main Sample.argv BadLookup.fs start
  = (1%Z, printed (__init__ (mkFile 22022 BadLookup.decoded) start).2
                  "Error: Lookup file must be ASCII text").
Proof.
  refine (proj2 (lookup_bad_byte_aborts BadLookup.lookups start
                   BadLookup.decoded [] eq_refl _ _)
            "flow_parser.py" "log.txt" "lookup.csv" "out.txt" BadLookup.fs
            eq_refl _ _); vm_compute; (reflexivity || discriminate).
Defined.

(** ** Runs of [main] *)

(** X11. Before any file is opened [main] checks the number of arguments,
    then the size of the log, then the size of the lookup file. A wrong
    argument count prints the usage line; a log above 10,485,760 bytes or,
    with an admissible log, a lookup file above 1,048,576 bytes prints the
    matching error. In each case the status is 1 and nothing else changes:
    no parser is built, no file is read, no report is written. Files of
    exactly the limit sizes pass both checks. *)
Theorem preflight_checks (prog log_file lookup_file output_file : string)
    (argv : list string) (fs : string -> file) (st : pstate) :
  (length argv <> 4%nat -> main argv fs st = (1%Z, printed st usage)) /\
  ((10485760 < getsize (fs log_file))%Z ->
   main [prog; log_file; lookup_file; output_file] fs st
   = (1%Z, printed st "Error: Flow log file too large")) /\
  ((getsize (fs log_file) <= 10485760)%Z ->
   (1048576 < getsize (fs lookup_file))%Z ->
   main [prog; log_file; lookup_file; output_file] fs st
   = (1%Z, printed st "Error: Lookup file too large")) /\
  ((getsize (fs log_file) <= 10485760)%Z ->
   (getsize (fs lookup_file) <= 1048576)%Z ->
   main [prog; log_file; lookup_file; output_file] fs st
   = match (__init__ (fs lookup_file) >> process_logs (fs log_file) >>
            write_report) st with
     | (Ok _, st') => (0%Z, st')
     | (Raise e, st') => (1%Z, printed st' ("Error: " +:+ exn_str e))
     end).
Proof.
  split; [|split; [|split]].
  - intros Hlen. unfold main.
    destruct (Nat.eqb_spec (length argv) 4); [contradiction|reflexivity].
  - intros Hlog. rewrite main_run.
    destruct (Z.ltb_spec max_log_size (getsize (fs log_file)));
      [reflexivity|unfold max_log_size in *; lia].
  - intros Hlog Hlookup. rewrite main_run.
    destruct (Z.ltb_spec max_log_size (getsize (fs log_file)));
      [unfold max_log_size in *; lia|].
    destruct (Z.ltb_spec max_lookup_size (getsize (fs lookup_file)));
      [reflexivity|unfold max_lookup_size in *; lia].
  - intros Hlog Hlookup. rewrite main_run.
    destruct (Z.ltb_spec max_log_size (getsize (fs log_file)));
      [unfold max_log_size in *; lia|].
    destruct (Z.ltb_spec max_lookup_size (getsize (fs lookup_file)));
      [unfold max_lookup_size in *; lia|reflexivity].
Qed.


Lemma preflight_checks_witness :
  main ["flow_parser.py"; "log.txt"] Sample.fs start = (1%Z, printed start usage) /\
  main Sample.argv Oversize.fs start
  = (1%Z, printed start "Error: Lookup file too large").
Proof.
  pose proof (preflight_checks "flow_parser.py" "log.txt" "lookup.csv" "out.txt"
                ["flow_parser.py"; "log.txt"] Sample.fs start) as (Hargs & _).
  pose proof (preflight_checks "flow_parser.py" "log.txt" "lookup.csv" "out.txt"
                Sample.argv Oversize.fs start) as (_ & _ & Hlookup & _).
  split.
  - apply Hargs. vm_compute. discriminate.
  - apply Hlookup; vm_compute; (reflexivity || discriminate).
Defined.

(** X12. A complete run: with four arguments, files within the size
    limits, a lookup source from which the constructor returns normally and
    a log that decodes, [main] ends with status 0, prints nothing beyond
    what the loader printed, and the report holds the layout of the counters
    that one pass over the log leaves. *)
Theorem main_writes_report (prog log_file lookup_file output_file : string)
    (fs : string -> file) (st st1 : pstate) :
  (getsize (fs log_file) <= max_log_size)%Z ->
  (getsize (fs lookup_file) <= max_lookup_size)%Z ->
  ascii_reads (reads (fs lookup_file)) ->
  ascii_reads (reads (fs log_file)) ->
  decodes (reads (fs log_file)) = true ->
  __init__ (fs lookup_file) st = (Ok tt, st1) ->
  exists p,
    process_logs (fs log_file) st1
    = (Ok tt, mkState p (console st1) (report st1)) /\
    main [prog; log_file; lookup_file; output_file] fs st
    = (0%Z, mkState p (console st1)
              (Some (layout (sorted_items (tag_count p))
                            (sorted_items (traffic_count p))))).
Proof. apply main_complete_run. Qed.

Lemma main_writes_report_witness :
  exists p,
    process_logs Sample.log (__init__ Sample.lookups start).2
    = (Ok tt, mkState p ["Skipping bad line: oops"] None) /\
    main Sample.argv Sample.fs start
    = (0%Z, mkState p ["Skipping bad line: oops"]
              (Some (layout (sorted_items (tag_count p))
                            (sorted_items (traffic_count p))))).
Proof.
  refine (main_writes_report "flow_parser.py" "log.txt" "lookup.csv" "out.txt"
            Sample.fs start (__init__ Sample.lookups start).2 _ _ _ _ _ _).
  - vm_compute. discriminate.
  - vm_compute. discriminate.
  - repeat constructor.
  - repeat constructor.
  - reflexivity.
  - vm_compute. reflexivity.
Defined.

Lemma ascii_reads_forallb f :
  forallb (fun r => match r with
                    | Line text => PyStr.isascii text
                    | BadByte => true
                    end) f = true ->
  ascii_reads f.
Proof.
  induction f as [|r f IH]; [constructor|].
  simpl. intros [Hr Hf]%andb_true_iff. constructor; [|apply IH; assumption].
  destruct r; [assumption|exact I].
Qed.

(** What [main] leaves behind when the files hold decoded text. *)
Lemma main_outcome prog log_file lookup_file output_file fs st :
  ascii_reads (reads (fs lookup_file)) ->
  ascii_reads (reads (fs log_file)) ->
  let out := main [prog; log_file; lookup_file; output_file] fs st in
  (out.1 = 0%Z /\
   report out.2 = Some (layout (sorted_items (tag_count (self out.2)))
                               (sorted_items (traffic_count (self out.2))))) \/
  (out.1 = 1%Z /\ report out.2 = report st /\
   exists e, last (console out.2) = Some ("Error: " +:+ exn_str e)).
Proof.
  intros Hal Hag. cbv zeta.
  assert (Hfail : forall st' e,
            report st' = report st ->
            main [prog; log_file; lookup_file; output_file] fs st
            = (1%Z, printed st' ("Error: " +:+ exn_str e)) ->
            (main [prog; log_file; lookup_file; output_file] fs st).1 = 1%Z /\
            report (main [prog; log_file; lookup_file; output_file] fs st).2
            = report st /\
            exists e0, last (console (main [prog; log_file; lookup_file;
                                            output_file] fs st).2)
                       = Some ("Error: " +:+ exn_str e0)).
  { intros st' e Hrep ->. split; [reflexivity|]. split; [exact Hrep|].
    exists e. cbn [snd printed console]. apply last_snoc. }
  pose proof (__init___report (fs lookup_file) st) as Hrep.
  destruct (Z.ltb_spec max_log_size (getsize (fs log_file))) as [Hlog|Hlog].
  { right. apply (Hfail st (ValueError "Flow log file too large"));
      [reflexivity|].
    rewrite main_run.
    destruct (Z.ltb_spec max_log_size (getsize (fs log_file))); [|lia].
    reflexivity. }
  destruct (Z.ltb_spec max_lookup_size (getsize (fs lookup_file)))
    as [Hlookup|Hlookup].
  { right. apply (Hfail st (ValueError "Lookup file too large"));
      [reflexivity|].
    rewrite main_run.
    destruct (Z.ltb_spec max_log_size (getsize (fs log_file))); [lia|].
    destruct (Z.ltb_spec max_lookup_size (getsize (fs lookup_file))); [|lia].
    reflexivity. }
  destruct (__init__ (fs lookup_file) st) as [[[]|e] st1] eqn:Hinit;
    simpl in Hrep.
  - destruct (decodes (reads (fs log_file))) eqn:Hdec.
    + left.
      destruct (main_complete_run prog log_file lookup_file output_file fs st st1
                  Hlog Hlookup Hal Hag Hdec Hinit) as (p & _ & Hmain).
      rewrite Hmain. split; reflexivity.
    + right.
      apply (Hfail (mkState (foldl counted (self st1)
                               (lines_read (reads (fs log_file))))
                            (console st1) (report st1))
                   (ValueError "Log file must be ASCII text"));
        [exact Hrep|].
      rewrite main_run.
      destruct (Z.ltb_spec max_log_size (getsize (fs log_file))); [lia|].
      destruct (Z.ltb_spec max_lookup_size (getsize (fs lookup_file))); [lia|].
      unfold bind at 1. rewrite Hinit. unfold bind at 1.
      rewrite process_logs_run, Hdec.
      destruct (Z.ltb_spec max_log_size (getsize (fs log_file))); [lia|].
      reflexivity.
  - right. apply (Hfail st1 e); [exact Hrep|].
    rewrite main_run.
    destruct (Z.ltb_spec max_log_size (getsize (fs log_file))); [lia|].
    destruct (Z.ltb_spec max_lookup_size (getsize (fs lookup_file))); [lia|].
    unfold bind at 1. rewrite Hinit. reflexivity.
Qed.

(** X13. No failed run touches the report: when the files hold decoded
    text, [main] either ends with status 0 and the report is the full
    layout of the final counters, or it ends with status 1, the report file
    is as it was before the run (not created, not truncated), and the last
    line on the console is the usage line or an ["Error: ..."] line. *)
Theorem failed_run_writes_nothing (argv : list string) (fs : string -> file)
    (st : pstate) :
  (forall path, ascii_reads (reads (fs path))) ->
  let out := main argv fs st in
  (out.1 = 0%Z /\
   report out.2 = Some (layout (sorted_items (tag_count (self out.2)))
                               (sorted_items (traffic_count (self out.2))))) \/
  (out.1 = 1%Z /\ report out.2 = report st /\
   (last (console out.2) = Some usage \/
    exists e, last (console out.2) = Some ("Error: " +:+ exn_str e))).
Proof.
  intros Hascii. cbv zeta.
  destruct (Nat.eqb_spec (length argv) 4) as [Hlen|Hlen].
  - destruct argv as [|prog [|log_file [|lookup_file [|output_file [|]]]]];
      try (simpl in Hlen; lia).
    destruct (main_outcome prog log_file lookup_file output_file fs st
                (Hascii lookup_file) (Hascii log_file))
      as [H|(H1 & H2 & H3)]; [left; assumption|right; auto].
  - right. unfold main.
    destruct (Nat.eqb_spec (length argv) 4); [contradiction|].
    simpl. rewrite last_snoc. auto.
Qed.

Lemma failed_run_writes_nothing_witness :
  (main Sample.argv NoHeader.fs start).1 = 1%Z /\
  report (main Sample.argv NoHeader.fs start).2 = None.
Proof.
  destruct (failed_run_writes_nothing Sample.argv NoHeader.fs start)
    as [[H _]|(H1 & H2 & _)].
  - intros path. apply ascii_reads_forallb. unfold NoHeader.fs.
    destruct (String.eqb path "lookup.csv"); vm_compute; reflexivity.
  - exfalso. revert H. vm_compute. discriminate.
  - split; [exact H1 | exact H2].
Defined.

(** ** Writing the report again, and failing to write it *)

(** X14. [write_report] replaces the report: with ASCII keys the text
    written does not depend on what the file held before, the counters and
    the console are left alone, and writing a second time changes
    nothing. *)
Theorem report_is_rewritten (st : pstate) (old : option string) :
  map_Forall (fun tag _ => PyStr.isascii tag = true) (tag_count (self st)) ->
  map_Forall (fun key _ => PyStr.isascii key = true) (traffic_count (self st)) ->
  write_report (mkState (self st) (console st) old) = write_report st /\
  exists st1,
    write_report st = (Ok tt, st1) /\
    self st1 = self st /\ console st1 = console st /\
    write_report st1 = (Ok tt, st1).
Proof.
  intros Htag Htraffic.
  rewrite (write_report_run st Htag Htraffic).
  rewrite (write_report_run (mkState (self st) (console st) old) Htag Htraffic).
  split; [reflexivity|].
  eexists. split; [reflexivity|]. split; [reflexivity|]. split; [reflexivity|].
  apply (write_report_run (mkState (self st) (console st) _) Htag Htraffic).
Qed.

Lemma report_is_rewritten_witness :
  write_report (mkState (self Sample.counters) [] (Some "stale"))
  = write_report Sample.counters.
Proof.
  refine (proj1 (report_is_rewritten Sample.counters (Some "stale") _ _)).
  - repeat (apply map_Forall_insert_2; [reflexivity|]). apply map_Forall_empty.
  - repeat (apply map_Forall_insert_2; [reflexivity|]). apply map_Forall_empty.
Defined.

Lemma isascii_row_key item : PyStr.isascii (row item) = PyStr.isascii item.1.
Proof.
  unfold row. rewrite !isascii_app, isascii_str_of_int.
  destruct (PyStr.isascii item.1); reflexivity.
Qed.

(** Rows are written up to the first one that cannot be encoded. *)
Lemma write_rows_outcome items p out text :
  exists text',
    write_rows items (mkState p out (Some text))
    = (if forallb (fun item => PyStr.isascii item.1) items then Ok tt
       else Raise UnicodeEncodeError,
       mkState p out (Some (text +:+ text'))).
Proof.
  revert text. induction items as [|item items IH]; intros text.
  - exists "". rewrite append_empty_r. reflexivity.
  - simpl write_rows. unfold bind. cbn [forallb].
    destruct (PyStr.isascii item.1) eqn:Hitem; cbn [andb].
    + rewrite fwrite_run by (rewrite isascii_row_key; assumption).
      cbn [self console report from_option]. unfold id.
      destruct (IH (text +:+ row item)) as [t' Ht']. rewrite Ht'.
      exists (row item +:+ t'). rewrite append_assoc. reflexivity.
    + unfold fwrite. rewrite isascii_row_key, Hitem.
      exists "". rewrite append_empty_r. reflexivity.
Qed.

Lemma forallb_sorted_items (d : gmap string Z) key n :
  d !! key = Some n -> PyStr.isascii key = false ->
  forallb (fun item => PyStr.isascii item.1) (sorted_items d) = false.
Proof.
  intros Hkey Hbad.
  destruct (forallb _ _) eqn:Hall; [|reflexivity].
  rewrite forallb_forall in Hall.
  specialize (Hall (key, n)). simpl in Hall. rewrite Hbad in Hall.
  symmetry. apply Hall. apply list_elem_of_In.
  destruct (sorted_items_spec d) as [Hperm _]. rewrite Hperm.
  apply elem_of_map_to_list. assumption.
Qed.

(** X15. A key that the ASCII codec cannot encode makes [write_report]
    fail with [ValueError("Cannot write non-ASCII characters")]. By then the
    report file has been created and holds the two header lines followed by
    whatever rows were written before the offending one; the counters and
    the console are unchanged. *)
Theorem non_ascii_key_fails (st : pstate) (key : string) (n : Z) :
  tag_count (self st) !! key = Some n \/
  traffic_count (self st) !! key = Some n ->
  PyStr.isascii key = false ->
  exists text,
    write_report st
    = (Raise (ValueError "Cannot write non-ASCII characters"),
       mkState (self st) (console st)
               (Some ("Tag Counts:" +:+ nl +:+ "Tag,Count" +:+ nl +:+ text))).
Proof.
  intros Hkey Hbad.
  unfold write_report, try_except.
  unfold bind at 1. unfold fopen_w.
  unfold bind at 1. rewrite fwrite_run by reflexivity.
  unfold bind at 1. rewrite fwrite_run by reflexivity.
  unfold bind at 1. unfold bind at 1. unfold get_self.
  cbn [self console report default].
  destruct (write_rows_outcome (sorted_items (tag_count (self st))) (self st)
              (console st)
              (id (id "" +:+ "Tag Counts:" +:+ nl) +:+ "Tag,Count" +:+ nl))
    as [t1 ->].
  destruct (forallb _ (sorted_items (tag_count (self st)))) eqn:Htags.
  - destruct Hkey as [Hkey|Hkey].
    { rewrite (forallb_sorted_items _ key n Hkey Hbad) in Htags. discriminate. }
    unfold bind at 1. rewrite fwrite_run by reflexivity.
    unfold bind at 1. rewrite fwrite_run by reflexivity.
    unfold bind at 1. cbn [self console report default].
    match goal with
    | |- context [write_rows ?items (mkState ?p ?out (Some ?text))] =>
        destruct (write_rows_outcome items p out text) as [t2 ->]
    end.
    rewrite (forallb_sorted_items _ key n Hkey Hbad).
    cbn [is_UnicodeEncodeError]. unfold raise, id.
    eexists. rewrite !append_assoc. reflexivity.
  - cbn [is_UnicodeEncodeError]. unfold raise, id.
    exists t1. rewrite !append_assoc. reflexivity.
Qed.


Lemma non_ascii_key_fails_witness :
  exists text,
    write_report Latin1.counters
    = (Raise (ValueError "Cannot write non-ASCII characters"),
       mkState (self Latin1.counters) []
               (Some ("Tag Counts:" +:+ nl +:+ "Tag,Count" +:+ nl +:+ text))).
Proof.
  apply (non_ascii_key_fails Latin1.counters (String "233" "") 1%Z).
  - left. vm_compute. reflexivity.
  - reflexivity.
Defined.

(** ** Everything [main] can say when it fails *)

Lemma __init___result lookups st :
  (__init__ lookups st).1 = Ok tt \/
  (__init__ lookups st).1 = Raise StopIteration \/
  (__init__ lookups st).1 = Raise (ValueError "Lookup file must be ASCII text").
Proof.
  unfold __init__, _load_lookups. run.
  destruct (reads lookups) as [|[header|] f]; simpl; auto.
  pose proof (load_loop_outcome f 0
                (mkState (mkFlowParser ∅ ∅ ∅) (console st) (report st))) as H.
  destruct (load_loop f 0 _) as [r st']. simpl in *.
  destruct H as [-> | ->]; simpl; auto.
Qed.

Lemma write_report_result st :
  (write_report st).1 = Ok tt \/
  (write_report st).1 = Raise (ValueError "Cannot write non-ASCII characters").
Proof.
  assert (H : exists r st', write_report st = (r, st') /\
            (r = Ok tt \/
             r = Raise (ValueError "Cannot write non-ASCII characters"))).
  { unfold write_report, try_except.
    unfold bind at 1. unfold fopen_w.
    unfold bind at 1. rewrite fwrite_run by reflexivity.
    unfold bind at 1. rewrite fwrite_run by reflexivity.
    unfold bind at 1. unfold bind at 1. unfold get_self.
    cbn [self console report default].
    match goal with
    | |- context [write_rows ?items (mkState ?p ?out (Some ?text))] =>
        destruct (write_rows_outcome items p out text) as [t1 ->]
    end.
    destruct (forallb _ _).
    2:{ cbn [is_UnicodeEncodeError]. unfold raise. eauto. }
    unfold bind at 1. rewrite fwrite_run by reflexivity.
    unfold bind at 1. rewrite fwrite_run by reflexivity.
    unfold bind at 1. cbn [self console report default].
    match goal with
    | |- context [write_rows ?items (mkState ?p ?out (Some ?text))] =>
        destruct (write_rows_outcome items p out text) as [t2 ->]
    end.
    destruct (forallb _ _); cbn [is_UnicodeEncodeError]; unfold raise; eauto. }
  destruct H as (r & st' & -> & H). exact H.
Qed.

(** X16. [main] ends with status 0 or 1, and when it ends with 1 the last
    line on the console is the usage line or ["Error: "] followed by one of
    six texts: the two size messages of [main], the empty text (an empty
    lookup file), the two non-ASCII messages of the loader and of the
    aggregator, and the one of the report writer. The size message of
    [process_logs] is not among them: the check in [main] comes first. *)
Theorem main_error_messages (argv : list string) (fs : string -> file)
    (st : pstate) :
  let out := main argv fs st in
  out.1 = 0%Z \/
  (out.1 = 1%Z /\
   exists msg, last (console out.2) = Some msg /\
     msg ∈ [usage;
            "Error: Flow log file too large";
            "Error: Lookup file too large";
            "Error: ";
            "Error: Lookup file must be ASCII text";
            "Error: Log file must be ASCII text";
            "Error: Cannot write non-ASCII characters"]).
Proof.
  cbv zeta.
  set (msgs := [usage;
                "Error: Flow log file too large";
                "Error: Lookup file too large";
                "Error: ";
                "Error: Lookup file must be ASCII text";
                "Error: Log file must be ASCII text";
                "Error: Cannot write non-ASCII characters"]).
  assert (Hgen : forall P : Z * pstate -> Prop,
            (forall st', P (0%Z, st')) ->
            (forall st' msg, msg ∈ msgs -> P (1%Z, printed st' msg)) ->
            P (main argv fs st)).
  { intros P Hok Hfail.
    destruct (Nat.eqb_spec (length argv) 4) as [Hlen|Hlen].
    2:{ replace (main argv fs st) with (1%Z, printed st usage).
        - apply Hfail. set_solver.
        - unfold main.
          destruct (Nat.eqb_spec (length argv) 4);
            [contradiction|reflexivity]. }
    destruct argv as [|prog [|log_file [|lookup_file [|output_file [|]]]]];
      try (simpl in Hlen; lia).
    rewrite main_run.
    destruct (max_log_size <? getsize (fs log_file))%Z eqn:Hlog.
    { apply Hfail. set_solver. }
    destruct (max_lookup_size <? getsize (fs lookup_file))%Z.
    { apply Hfail. set_solver. }
    unfold bind.
    pose proof (__init___result (fs lookup_file) st) as Hinit.
    destruct (__init__ (fs lookup_file) st) as [r1 st1]. simpl in Hinit.
    destruct Hinit as [-> | [-> | ->]].
    2:{ apply Hfail. set_solver. }
    2:{ apply Hfail. set_solver. }
    rewrite process_logs_run, Hlog.
    destruct (decodes (reads (fs log_file))).
    2:{ apply Hfail. set_solver. }
    pose proof (write_report_result
                  (mkState (foldl counted (self st1)
                              (lines_read (reads (fs log_file))))
                           (console st1) (report st1))) as Hw.
    destruct (write_report _) as [r3 st3]. simpl in Hw.
    destruct Hw as [-> | ->].
    - apply Hok.
    - apply Hfail. set_solver. }
  apply (Hgen (fun out =>
                 out.1 = 0%Z \/
                 (out.1 = 1%Z /\
                  exists m, last (console out.2) = Some m /\ m ∈ msgs))).
  - intros st'. left. reflexivity.
  - intros st' msg Hin. right. split; [reflexivity|].
    exists msg. split; [apply last_snoc|assumption].
Qed.
